(** * Interview research assistant: the response normaliser, the model-backed
      calls with their fallbacks, the MongoDB gateway and the research route

    The development embeds [ai_processor.py], [database.py], [scraper.py] and
    the [/research] route of [api.py].  Python values are embedded as a small
    universe of dynamically typed values, a [str] is a sequence of Unicode
    code points, a top-level [dict] is a finite map, and every operation that
    can raise in Python returns a [result]. *)

From Stdlib Require Import NArith ZArith Ascii String.
From stdpp Require Import gmap list strings pretty.

Set Warnings "-register-all".
Open Scope N_scope.

(** ** Python [str] *)

(** A [str] is a sequence of code points; [py] reads an ASCII literal and
    [dq] reads a literal in which the apostrophe stands for the double quote
    (code point 34), so that JSON texts can be written down. *)
Abbreviation pystr := (list N).

Definition py (s : string) : pystr := N_of_ascii <$> list_ascii_of_string s.

Definition dq (s : string) : pystr :=
  (fun c => if c =? 39 then 34 else c) <$> py s.

Module PyStr.

(** [str.isspace] for one code point: the whitespace set of [str.strip()]. *)
Definition is_space (c : N) : bool :=
  ((9 <=? c) && (c <=? 13)) || ((28 <=? c) && (c <=? 32))
  || (c =? 133) || (c =? 160) || (c =? 5760)
  || ((8192 <=? c) && (c <=? 8202))
  || (c =? 8232) || (c =? 8233) || (c =? 8239) || (c =? 8287) || (c =? 12288).

Definition mem (c : N) (chars : pystr) : bool := existsb (N.eqb c) chars.

Fixpoint lstrip_by (p : N -> bool) (s : pystr) : pystr :=
  match s with
  | c :: r => if p c then lstrip_by p r else s
  | [] => []
  end.

Definition rstrip_by (p : N -> bool) (s : pystr) : pystr :=
  rev (lstrip_by p (rev s)).

Definition strip_by (p : N -> bool) (s : pystr) : pystr :=
  rstrip_by p (lstrip_by p s).

(** [s.strip()] and [s.strip(chars)]. *)
Definition strip (s : pystr) : pystr := strip_by is_space s.
Definition strip_chars (chars s : pystr) : pystr :=
  strip_by (fun c => mem c chars) s.

Fixpoint startswith (p s : pystr) : bool :=
  match p, s with
  | [], _ => true
  | a :: p', b :: s' => (a =? b) && startswith p' s'
  | _ :: _, [] => false
  end.

(** [needle in hay]. *)
Fixpoint contains (needle hay : pystr) : bool :=
  startswith needle hay ||
  match hay with
  | [] => false
  | _ :: r => contains needle r
  end.

(** [s.split(sep)] for a non-empty separator: left to right, matches do
    not overlap.  [skip] counts the separator's code points still to drop,
    [cur] is the piece being read, reversed. *)
Fixpoint split_go (sep : pystr) (skip : nat) (s cur : pystr) : list pystr :=
  match s with
  | [] => [rev cur]
  | c :: r =>
    match skip with
    | S k => split_go sep k r cur
    | O =>
      if startswith sep s
      then rev cur :: split_go sep (length sep - 1) r []
      else split_go sep 0 r (c :: cur)
    end
  end.

Definition split (sep s : pystr) : list pystr := split_go sep 0 s [].

(** Line boundaries of [str.splitlines]. *)
Definition is_linebreak (c : N) : bool :=
  ((10 <=? c) && (c <=? 13)) || ((28 <=? c) && (c <=? 30))
  || (c =? 133) || (c =? 8232) || (c =? 8233).

(** [s.splitlines()]: CR LF counts as one boundary, and a boundary at the
    very end opens no further line. *)
Fixpoint splitlines_go (s cur : pystr) (after_cr : bool) : list pystr :=
  match s with
  | [] => match cur with [] => [] | _ => [rev cur] end
  | c :: r =>
    if after_cr && (c =? 10) then splitlines_go r cur false
    else if is_linebreak c then rev cur :: splitlines_go r [] (c =? 13)
    else splitlines_go r (c :: cur) false
  end.

Definition splitlines (s : pystr) : list pystr := splitlines_go s [] false.

(** [str(n)] for an [int], as the f-strings print it. *)
Definition of_int (z : Z) : pystr := py (pretty z).

End PyStr.

(** ** Python values, exceptions and dictionaries *)

(** The values that flow through the program.  A [float] keeps its literal,
    since the program never computes with one.  [PDatetime] is a [datetime]
    such as [datetime.utcnow()] returns, given by its count of milliseconds:
    that is the precision the store keeps, and the microseconds the clock
    also reads are not represented, since the program never looks into a
    time stamp it holds: it stores it, hands it on, and fails to write it
    into JSON.  [PObjectId] is the [_id]
    the store gives a document.  The keys of an object decoded from JSON keep
    their order of appearance in a [PDict]. *)
Inductive pyvalue :=
| PNone
| PBool (b : bool)
| PInt (z : Z)
| PFloat (literal : pystr)
| PStr (s : pystr)
| PList (items : list pyvalue)
| PDict (pairs : list (pystr * pyvalue))
| PDatetime (t : Z)
| PObjectId (n : Z).

(** A document or record handled by reference: a Python [dict] with [str]
    keys, equal to another when both hold the same value under every key. *)
Abbreviation pydict := (gmap pystr pyvalue).

(** The parts of the interpreter that are tables or renderers rather than
    code of the program: [str.lower], [str.isdigit], and [str(x)] for a value
    that is neither text, [None], a [bool] nor an [int].  The general results
    below hold for every such runtime.  [ascii_runtime] is the restriction of
    the tables to ASCII and is what the concrete runs use: every concrete
    input below is ASCII or uses the bullet U+2022, on which the interpreter
    and [ascii_runtime] agree, and no concrete run renders a container. *)
Record pyruntime := PyRuntime {
  str_lower : pystr -> pystr;
  chr_isdigit : N -> bool;
  str_other : pyvalue -> pystr
}.

Definition ascii_lower_char (c : N) : N :=
  if (65 <=? c) && (c <=? 90) then c + 32 else c.

Definition ascii_runtime : pyruntime :=
  {| str_lower := fun s => ascii_lower_char <$> s;
     chr_isdigit := fun c => (48 <=? c) && (c <=? 57);
     str_other := fun _ => py "<object>" |}.

Inductive pyexc :=
| NotConnected            (* Exception("Database not connected") *)
| KeyError (k : pystr)
| IndexError
| AttributeError
| TypeError
| JSONDecodeError
| StoreError              (* any error raised by the MongoDB driver *)
| ModelError              (* any error raised by the text model's client *)
| ValidationError         (* raised by a pydantic model given a value not of its type *)
| HTTPException (status : Z) (cause : pyexc).

Inductive result (A : Type) :=
| Ok (a : A)
| Raise (e : pyexc).
Arguments Ok {A} a.
Arguments Raise {A} e.

Definition bind {A B} (r : result A) (k : A -> result B) : result B :=
  match r with
  | Ok a => k a
  | Raise e => Raise e
  end.

Notation "x <- r ;; k" := (bind r (fun x => k))
  (at level 100, r at next level, right associativity).

(** [try: body  except Exception: handler]. *)
Definition try_except {A} (body : result A) (handler : pyexc -> result A) : result A :=
  match body with
  | Ok a => Ok a
  | Raise e => handler e
  end.

Module Py.

Definition is_str (v : pyvalue) : bool :=
  match v with PStr _ => true | _ => false end.

Definition is_list_of_str (v : pyvalue) : bool :=
  match v with PList l => forallb is_str l | _ => false end.

(** [d[k]] on a dictionary. *)
Definition getitem (d : pydict) (k : pystr) : result pyvalue :=
  match d !! k with
  | Some v => Ok v
  | None => Raise (KeyError k)
  end.

(** [d.get(k, default)]. *)
Definition get (d : pydict) (k : pystr) (default_value : pyvalue) : pyvalue :=
  default default_value (d !! k).

(** [x.lower()]: only a [str] has the method. *)
Definition lower (U : pyruntime) (v : pyvalue) : result pystr :=
  match v with
  | PStr s => Ok (str_lower U s)
  | _ => Raise AttributeError
  end.

(** [s[0]]. *)
Definition first (s : pystr) : result N :=
  match s with
  | c :: _ => Ok c
  | [] => Raise IndexError
  end.

(** [obj.get(k, default)] on a decoded JSON value: only an object has the
    method, and in an object the last pair with key [k] is the one the
    decoder keeps. *)
Fixpoint assoc_last (k : pystr) (pairs : list (pystr * pyvalue)) (found : option pyvalue)
  : option pyvalue :=
  match pairs with
  | [] => found
  | (k', v) :: r => assoc_last k r (if bool_decide (k' = k) then Some v else found)
  end.

Definition value_get (v : pyvalue) (k : pystr) (default_value : pyvalue) : result pyvalue :=
  match v with
  | PDict pairs =>
    Ok (match assoc_last k pairs None with Some x => x | None => default_value end)
  | _ => Raise AttributeError
  end.

(** [json.dumps] accepts a value unless a [datetime] or an [ObjectId]
    occurs in it. *)
Fixpoint serializable (v : pyvalue) : bool :=
  match v with
  | PDatetime _ | PObjectId _ => false
  | PList l => forallb serializable l
  | PDict d => forallb (fun kv => serializable (snd kv)) d
  | _ => true
  end.

Definition dict_serializable (d : pydict) : bool :=
  bool_decide (map_Forall (fun _ v => serializable v = true) d).

End Py.

(** ** The [json] module: [json.loads] and [json.dumps] with default options *)

Module Json.

Definition is_ws (c : N) : bool :=
  (c =? 32) || (c =? 9) || (c =? 10) || (c =? 13).

Definition skip_ws (s : pystr) : pystr := PyStr.lstrip_by is_ws s.

Definition is_digit (c : N) : bool := (48 <=? c) && (c <=? 57).

Definition hexval (c : N) : option N :=
  if (48 <=? c) && (c <=? 57) then Some (c - 48)
  else if (97 <=? c) && (c <=? 102) then Some (c - 87)
  else if (65 <=? c) && (c <=? 70) then Some (c - 55)
  else None.

Definition hex4 (a b c d : N) : option N :=
  match hexval a, hexval b, hexval c, hexval d with
  | Some x, Some y, Some z, Some w => Some (4096 * x + 256 * y + 16 * z + w)
  | _, _, _, _ => None
  end.

Definition is_high_surrogate (u : N) : bool := (55296 <=? u) && (u <=? 56319).
Definition is_low_surrogate (u : N) : bool := (56320 <=? u) && (u <=? 57343).
Definition join_surrogates (hi lo : N) : N :=
  65536 + 1024 * (hi - 55296) + (lo - 56320).

(** The one-letter escapes after a backslash: quote, backslash, slash, and
    the letters b, f, n, r, t for the control characters 8, 12, 10, 13, 9. *)
Definition unescape (c : N) : option N :=
  if c =? 34 then Some 34
  else if c =? 92 then Some 92
  else if c =? 47 then Some 47
  else if c =? 98 then Some 8
  else if c =? 102 then Some 12
  else if c =? 110 then Some 10
  else if c =? 114 then Some 13
  else if c =? 116 then Some 9
  else None.

(** A string body, read after its opening quote, up to and including the
    closing quote (strict mode: no raw control character).  A high
    surrogate escape directly followed by a low surrogate escape is joined
    into one code point.  [acc] is the text read so far, reversed. *)
Fixpoint scanstring (s acc : pystr) : option (pystr * pystr) :=
  match s with
  | [] => None
  | c :: r =>
    if c =? 34 then Some (rev acc, r)
    else if c =? 92 then
      match r with
      | [] => None
      | e :: r1 =>
        if e =? 117 then
          match r1 with
          | h1 :: h2 :: h3 :: h4 :: r2 =>
            match hex4 h1 h2 h3 h4 with
            | None => None
            | Some u =>
              if is_high_surrogate u then
                match r2 with
                | b :: v :: k1 :: k2 :: k3 :: k4 :: r3 =>
                  if (b =? 92) && (v =? 117) then
                    match hex4 k1 k2 k3 k4 with
                    | None => None
                    | Some u2 =>
                      if is_low_surrogate u2
                      then scanstring r3 (join_surrogates u u2 :: acc)
                      else scanstring r2 (u :: acc)
                    end
                  else scanstring r2 (u :: acc)
                | _ => scanstring r2 (u :: acc)
                end
              else scanstring r2 (u :: acc)
            end
          | _ => None
          end
        else
          match unescape e with
          | Some x => scanstring r1 (x :: acc)
          | None => None
          end
      end
    else if c <=? 31 then None
    else scanstring r (c :: acc)
  end.

(** Leading decimal digits of [s]: their value after [acc], and the rest. *)
Fixpoint digits (s : pystr) (acc : Z) : Z * pystr :=
  match s with
  | c :: r => if is_digit c then digits r (10 * acc + Z.of_N (c - 48))%Z else (acc, s)
  | [] => (acc, [])
  end.

Fixpoint skip_digits (s : pystr) : pystr :=
  match s with
  | c :: r => if is_digit c then skip_digits r else s
  | [] => []
  end.

(** The integer part [0 | [1-9][0-9]*] of a number. *)
Definition int_part (s : pystr) : option (Z * pystr) :=
  match s with
  | c :: r =>
    if c =? 48 then Some (0%Z, r)
    else if is_digit c then Some (digits s 0)
    else None
  | [] => None
  end.

(** An optional fraction [.digits] and an optional exponent
    [e|E, sign, digits], each taken only when at least one digit follows. *)
Definition frac_part (s : pystr) : option pystr :=
  match s with
  | c :: d :: r => if (c =? 46) && is_digit d then Some (skip_digits r) else None
  | _ => None
  end.

Definition exp_part (s : pystr) : option pystr :=
  match s with
  | c :: r =>
    if (c =? 101) || (c =? 69) then
      let r' := match r with
                | sg :: t => if (sg =? 43) || (sg =? 45) then t else r
                | [] => r
                end in
      match r' with
      | d :: t => if is_digit d then Some (skip_digits t) else None
      | [] => None
      end
    else None
  | [] => None
  end.

(** A number: an [int] when it has neither fraction nor exponent, else a
    [float], which keeps the text it was written with. *)
Definition number (s : pystr) : option (pyvalue * pystr) :=
  let '(neg, body) := match s with
                      | c :: r => if c =? 45 then (true, r) else (false, s)
                      | [] => (false, s)
                      end in
  match int_part body with
  | None => None
  | Some (z, r) =>
    let r1 := match frac_part r with Some t => t | None => r end in
    let r2 := match exp_part r1 with Some t => t | None => r1 end in
    if bool_decide (length r2 = length r)
    then Some (PInt (if neg then - z else z)%Z, r)
    else Some (PFloat (take (length s - length r2) s), r2)
  end.

(** [Some rest] when [s] starts with the word [w]. *)
Definition word (w s : pystr) : option pystr :=
  if PyStr.startswith w s then Some (drop (length w) s) else None.

Definition constant (s : pystr) : option (pyvalue * pystr) :=
  match word (py "null") s with Some r => Some (PNone, r) | None =>
  match word (py "true") s with Some r => Some (PBool true, r) | None =>
  match word (py "false") s with Some r => Some (PBool false, r) | None =>
  match word (py "NaN") s with Some r => Some (PFloat (py "NaN"), r) | None =>
  match word (py "Infinity") s with Some r => Some (PFloat (py "Infinity"), r) | None =>
  match word (py "-Infinity") s with Some r => Some (PFloat (py "-Infinity"), r) | None =>
  None end end end end end end.

(** The scanner.  [value] reads one value at the head of [s]; [elements]
    reads the items of an array after its opening bracket and [members] the
    pairs of an object after its opening brace, both up to and including the
    closing one.  [n] bounds the nesting plus the number of items read. *)
Fixpoint value (n : nat) (s : pystr) : option (pyvalue * pystr) :=
  match n with
  | O => None
  | S n' =>
    match s with
    | [] => None
    | c :: r =>
      if c =? 34 then
        match scanstring r [] with
        | Some (str, r') => Some (PStr str, r')
        | None => None
        end
      else if c =? 123 then
        match skip_ws r with
        | c' :: r' =>
          if c' =? 125 then Some (PDict [], r') else members n' (c' :: r') []
        | [] => None
        end
      else if c =? 91 then
        match skip_ws r with
        | c' :: r' =>
          if c' =? 93 then Some (PList [], r') else elements n' (c' :: r') []
        | [] => None
        end
      else
        match constant s with
        | Some x => Some x
        | None => number s
        end
    end
  end
with elements (n : nat) (s : pystr) (acc : list pyvalue) : option (pyvalue * pystr) :=
  match n with
  | O => None
  | S n' =>
    match value n' s with
    | None => None
    | Some (v, r) =>
      match skip_ws r with
      | c :: r' =>
        if c =? 93 then Some (PList (rev (v :: acc)), r')
        else if c =? 44 then elements n' (skip_ws r') (v :: acc)
        else None
      | [] => None
      end
    end
  end
with members (n : nat) (s : pystr) (acc : list (pystr * pyvalue)) : option (pyvalue * pystr) :=
  match n with
  | O => None
  | S n' =>
    match s with
    | c :: r =>
      if c =? 34 then
        match scanstring r [] with
        | None => None
        | Some (k, r1) =>
          match skip_ws r1 with
          | c1 :: r2 =>
            if c1 =? 58 then
              match value n' (skip_ws r2) with
              | None => None
              | Some (v, r3) =>
                match skip_ws r3 with
                | c3 :: r4 =>
                  if c3 =? 125 then Some (PDict (rev ((k, v) :: acc)), r4)
                  else if c3 =? 44 then members n' (skip_ws r4) ((k, v) :: acc)
                  else None
                | [] => None
                end
              end
            else None
          | [] => None
          end
        end
      else None
    | [] => None
    end
  end.

(** [json.loads(s)]: one value between optional whitespace, nothing after
    it.  The bound lets every text be read to its end; the interpreter's
    limits on recursion depth and on the digits of an [int] are not
    modelled. *)
Definition loads (s : pystr) : result pyvalue :=
  match value (2 * length s + 2) (skip_ws s) with
  | Some (v, r) =>
    match skip_ws r with
    | [] => Ok v
    | _ :: _ => Raise JSONDecodeError
    end
  | None => Raise JSONDecodeError
  end.

(** *** The encoder *)

Definition hexdigit (d : N) : N := if d <? 10 then 48 + d else 87 + d.

(** A backslash, the letter u and four lower-case hexadecimal digits. *)
Definition u_escape (u : N) : pystr :=
  [92; 117; hexdigit (u / 4096); hexdigit (u / 256 mod 16);
   hexdigit (u / 16 mod 16); hexdigit (u mod 16)].

(** With [ensure_ascii], only printable ASCII other than the quote and the
    backslash is written as it is; a code point beyond the basic plane is
    written as a surrogate pair. *)
Definition escape_char (c : N) : pystr :=
  if c =? 34 then [92; 34]
  else if c =? 92 then [92; 92]
  else if c =? 10 then [92; 110]
  else if c =? 13 then [92; 114]
  else if c =? 9 then [92; 116]
  else if c =? 8 then [92; 98]
  else if c =? 12 then [92; 102]
  else if (32 <=? c) && (c <=? 126) then [c]
  else if c <? 65536 then u_escape c
  else u_escape (55296 + (c - 65536) / 1024) ++ u_escape (56320 + (c - 65536) mod 1024).

Definition encode_string (s : pystr) : pystr :=
  34 :: flat_map escape_char s ++ [34].

(** [sep.join(parts)]. *)
Fixpoint join (sep : pystr) (parts : list pystr) : pystr :=
  match parts with
  | [] => []
  | [x] => x
  | x :: r => x ++ sep ++ join sep r
  end.

(** [json.dumps(v)]: items separated by a comma and a space, a key from its
    value by a colon and a space.  A [float] is written with its literal. *)
Fixpoint encode (v : pyvalue) : option pystr :=
  match v with
  | PNone => Some (py "null")
  | PBool true => Some (py "true")
  | PBool false => Some (py "false")
  | PInt z => Some (PyStr.of_int z)
  | PFloat lit => Some lit
  | PStr s => Some (encode_string s)
  | PList l =>
    match (fix items (l : list pyvalue) : option (list pystr) :=
             match l with
             | [] => Some []
             | x :: r =>
               match encode x, items r with
               | Some a, Some b => Some (a :: b)
               | _, _ => None
               end
             end) l with
    | Some parts => Some ([91] ++ join (py ", ") parts ++ [93])
    | None => None
    end
  | PDict d =>
    match (fix pairs (d : list (pystr * pyvalue)) : option (list pystr) :=
             match d with
             | [] => Some []
             | (k, x) :: r =>
               match encode x, pairs r with
               | Some a, Some b => Some ((encode_string k ++ py ": " ++ a) :: b)
               | _, _ => None
               end
             end) d with
    | Some parts => Some ([123] ++ join (py ", ") parts ++ [125])
    | None => None
    end
  | PDatetime _ | PObjectId _ => None
  end.

Definition dumps (v : pyvalue) : result pystr :=
  match encode v with
  | Some s => Ok s
  | None => Raise TypeError
  end.

End Json.

(** ** [ai_processor.py]: class [AIProcessor] *)

(** A call to the text model either returns the reply's text or raises; the
    prompt only influences which, so the outcome is an argument. *)
Abbreviation model_reply := (result pystr).

Module AIProcessor.

Definition bullet : N := 8226.

Definition k_overview := py "overview".
Definition k_technical_areas := py "technical_areas".
Definition k_questions := py "questions".
Definition k_strategy := py "strategy".
Definition k_timeline := py "timeline".
Definition k_tips := py "tips".

(** [str(x)] inside an f-string. *)
Definition format_value (U : pyruntime) (v : pyvalue) : pystr :=
  match v with
  | PStr s => s
  | PNone => py "None"
  | PBool true => py "True"
  | PBool false => py "False"
  | PInt z => PyStr.of_int z
  | _ => str_other U v
  end.

Definition format_opt (o : option pystr) : pystr :=
  match o with
  | Some s => s
  | None => py "None"
  end.

Section WithRuntime.
Variable U : pyruntime.

(** The dictionary built from a decoded JSON value, one [data.get] per
    field. *)
Definition guide_of_json (data : pyvalue) : result pydict :=
  overview <- Py.value_get data k_overview (PStr []) ;;
  technical_areas <- Py.value_get data k_technical_areas (PList []) ;;
  questions <- Py.value_get data k_questions (PList []) ;;
  strategy <- Py.value_get data k_strategy (PStr []) ;;
  timeline <- Py.value_get data k_timeline (PStr []) ;;
  tips <- Py.value_get data k_tips (PList []) ;;
  Ok (<[k_overview := overview]>
      (<[k_technical_areas := technical_areas]>
      (<[k_questions := questions]>
      (<[k_strategy := strategy]>
      (<[k_timeline := timeline]>
      (<[k_tips := tips]> ∅)))))).

Definition empty_guide : pydict :=
  <[k_overview := PStr []]>
  (<[k_technical_areas := PList []]>
  (<[k_questions := PList []]>
  (<[k_strategy := PStr []]>
  (<[k_timeline := PStr []]>
  (<[k_tips := PList []]> ∅))))).

(** The keyword chain of the section loop: the first keyword found in the
    lower-cased section names the field, and without one the field of the
    previous section stays. *)
Definition route (current section : pystr) : pystr :=
  let lower := str_lower U section in
  if PyStr.contains (py "technical areas") lower then k_technical_areas
  else if PyStr.contains (py "questions") lower then k_questions
  else if PyStr.contains (py "strategy") lower then k_strategy
  else if PyStr.contains (py "timeline") lower then k_timeline
  else if PyStr.contains (py "tips") lower then k_tips
  else current.

Definition is_list_field (k : pystr) : bool :=
  bool_decide (k ∈ [k_technical_areas; k_questions; k_tips]).

(** The condition of the comprehension:
    [line.strip() and (line.strip().startswith('-') or line.strip()[0].isdigit())]. *)
Definition is_item (line : pystr) : result bool :=
  match PyStr.strip line with
  | [] => Ok false
  | t =>
    if PyStr.startswith (py "-") t then Ok true
    else c <- Py.first t ;; Ok (chr_isdigit U c)
  end.

(** The characters of [line.strip('-• 1234567890.')]. *)
Definition marker_chars : pystr := [45; bullet] ++ py " 1234567890.".

Definition clean_item (line : pystr) : pyvalue :=
  PStr (PyStr.strip (PyStr.strip_chars marker_chars line)).

Fixpoint items_of (lines : list pystr) : result (list pyvalue) :=
  match lines with
  | [] => Ok []
  | line :: rest =>
    keep <- is_item line ;;
    more <- items_of rest ;;
    Ok (if keep then clean_item line :: more else more)
  end.

(** [parsed[k].extend(items)]. *)
Definition extend (parsed : pydict) (k : pystr) (items : list pyvalue) : result pydict :=
  target <- Py.getitem parsed k ;;
  match target with
  | PList l => Ok (<[k := PList (l ++ items)]> parsed)
  | _ => Raise AttributeError
  end.

(** One turn of [for section in sections], on the pair of [parsed] and
    [current_section]. *)
Definition parse_section (st : pydict * pystr) (section : pystr)
  : result (pydict * pystr) :=
  let '(parsed, current_section) := st in
  let current_section := route current_section section in
  if is_list_field current_section then
    items <- items_of (PyStr.split [10] section) ;;
    parsed <- extend parsed current_section items ;;
    Ok (parsed, current_section)
  else
    Ok (<[current_section := PStr (PyStr.strip section)]> parsed, current_section).

Fixpoint parse_sections (st : pydict * pystr) (sections : list pystr)
  : result (pydict * pystr) :=
  match sections with
  | [] => Ok st
  | section :: rest =>
    st <- parse_section st section ;;
    parse_sections st rest
  end.

Definition _parse_ai_response (response : pystr) : result pydict :=
  try_except
    (data <- Json.loads response ;; guide_of_json data)
    (fun _ =>
       st <- parse_sections (empty_guide, k_overview)
                            (PyStr.split [10; 10] response) ;;
       Ok (fst st)).

Definition _fallback_synthesis (scraped_data : pydict) : pydict :=
  <[k_overview := PStr (py "Interview preparation guide for " ++
      format_value U (Py.get scraped_data (py "company_name") (PStr (py "Unknown Company"))))]>
  (<[k_technical_areas := Py.get scraped_data (py "technical_topics") (PList [])]>
  (<[k_questions := Py.get scraped_data (py "behavioral_questions") (PList [])]>
  (<[k_strategy := PStr (py "Focus on technical skills and behavioral preparation")]>
  (<[k_timeline := PStr (py "2-4 weeks recommended preparation time")]>
  (<[k_tips := Py.get scraped_data (py "tips") (PList [])]> ∅))))).

Definition _fallback_questions (company_name : pystr) (role : option pystr)
  : list pyvalue :=
  [ PStr (py "What interests you about working at " ++ company_name ++ py "?");
    PStr (py "How would you approach a typical " ++ format_opt role ++ py " challenge?");
    PStr (py "Describe your experience with relevant technologies");
    PStr (py "How do you handle working in a team environment?");
    PStr (py "What's your approach to learning new technologies?") ].

Definition k_study_plan := py "study_plan".
Definition k_duration := py "duration".

Definition _fallback_study_plan (days : Z) : pydict :=
  <[k_study_plan := PStr (py "Structured " ++ PyStr.of_int days ++
                           py "-day preparation plan with daily goals")]>
  (<[k_duration := PInt days]> ∅).

(** [json.dumps(d, indent=2)] on a record: only whether it raises matters
    to the program, since the text goes into the prompt. *)
Definition dumps_for_prompt (d : pydict) : result unit :=
  if Py.dict_serializable d then Ok tt else Raise TypeError.

(** The whole body is inside [try], the dump of the record for the prompt
    included. *)
Definition synthesize_interview_data (reply : model_reply) (scraped_data : pydict)
  : result pydict :=
  try_except
    (_ <- dumps_for_prompt scraped_data ;;
     content <- reply ;;
     _parse_ai_response content)
    (fun _ => Ok (_fallback_synthesis scraped_data)).

(** The lines of a reply that is not JSON:
    [[q.strip("-• ") for q in text.splitlines() if q.strip()]]. *)
Definition question_lines (text : pystr) : list pyvalue :=
  (fun q => PStr (PyStr.strip_chars [45; bullet; 32] q)) <$>
    filter (fun q => PyStr.strip q <> []) (PyStr.splitlines text).

Definition generate_custom_questions (reply : model_reply)
    (company_name : pystr) (role experience_level : option pystr)
  : result (list pyvalue) :=
  try_except
    (text <- reply ;;
     questions <- try_except (Json.loads text)
                             (fun _ => Ok (PList (question_lines text))) ;;
     Ok (match questions with
         | PList l => l
         | _ => []
         end))
    (fun _ => Ok (_fallback_questions company_name role)).

(** The prompt, with its dump of the record, is built before [try]. *)
Definition create_study_plan (reply : model_reply) (interview_data : pydict)
    (days_to_prepare : Z) : result pydict :=
  _ <- dumps_for_prompt interview_data ;;
  try_except
    (text <- reply ;;
     Ok (<[k_study_plan := PStr text]> (<[k_duration := PInt days_to_prepare]> ∅)))
    (fun _ => Ok (_fallback_study_plan days_to_prepare)).

End WithRuntime.

End AIProcessor.

(** ** [scraper.py]: class [InterviewScraper]

    The fetchers return fixed data built from the company and the role. *)

Module Scraper.

Definition strs (l : list string) : pyvalue := PList ((fun s => PStr (py s)) <$> l).

(** [role or 'Software Engineer']. *)
Definition role_or_default (role : option pystr) : pystr :=
  match role with
  | Some (c :: r) => c :: r
  | _ => py "Software Engineer"
  end.

(** Process steps, technical topics and difficulty for a company. *)
Record base_data := BaseData {
  process_steps : pyvalue;
  technical_topics : pyvalue;
  difficulty_level : pyvalue
}.

Definition google_data : base_data :=
  {| process_steps := strs ["Phone/Video Screen with Recruiter";
                            "Technical Phone Interview";
                            "Onsite Interviews (4-5 rounds)";
                            "Hiring Committee Review"];
     technical_topics := strs ["Algorithms and Data Structures";
                               "System Design";
                               "Coding in preferred language";
                               "Problem-solving approach"];
     difficulty_level := PStr (py "Very Hard") |}.

Definition amazon_data : base_data :=
  {| process_steps := strs ["Online Assessment";
                            "Phone Interview";
                            "Virtual Onsite (3-4 rounds)";
                            "Bar Raiser Round"];
     technical_topics := strs ["Leadership Principles";
                               "Data Structures";
                               "System Design";
                               "Behavioral Questions"];
     difficulty_level := PStr (py "Hard") |}.

Definition microsoft_data : base_data :=
  {| process_steps := strs ["Recruiter Screen";
                            "Technical Phone Screen";
                            "Onsite Interviews (4-5 rounds)";
                            "Final Review"];
     technical_topics := strs ["Coding Problems";
                               "System Design";
                               "Technical Discussion";
                               "Culture Fit"];
     difficulty_level := PStr (py "Hard") |}.

Definition default_data : base_data :=
  {| process_steps := strs ["Initial Screening";
                            "Technical Interview";
                            "Final Round";
                            "Offer Discussion"];
     technical_topics := strs ["Programming Fundamentals";
                               "Problem Solving";
                               "Technical Knowledge";
                               "Communication Skills"];
     difficulty_level := PStr (py "Medium") |}.

Definition company_specific_data : gmap pystr base_data :=
  <[py "google" := google_data]>
  (<[py "amazon" := amazon_data]>
  (<[py "microsoft" := microsoft_data]> ∅)).

Section WithRuntime.
Variable U : pyruntime.

Definition _generate_mock_glassdoor_data (company_name : pystr) (role : option pystr)
  : pydict :=
  let base := default default_data (company_specific_data !! str_lower U company_name) in
  <[py "company_name" := PStr company_name]>
  (<[py "role" := PStr (role_or_default role)]>
  (<[py "process_steps" := process_steps base]>
  (<[py "technical_topics" := technical_topics base]>
  (<[py "behavioral_questions" := PList [
       PStr (py "Tell me about yourself");
       PStr (py "Why do you want to work at " ++ company_name ++ py "?");
       PStr (py "Describe a challenging project you worked on");
       PStr (py "How do you handle tight deadlines?");
       PStr (py "Where do you see yourself in 5 years?") ]]>
  (<[py "tips" := PList [
       PStr (py "Research " ++ company_name ++ py "'s culture and values");
       PStr (py "Practice coding problems on whiteboard");
       PStr (py "Prepare STAR method examples");
       PStr (py "Ask thoughtful questions about the role");
       PStr (py "Be ready to discuss your projects in detail") ]]>
  (<[py "difficulty_level" := difficulty_level base]>
  (<[py "source_urls" := strs ["https://glassdoor.com"; "https://leetcode.com"]]>
   ∅))))))).

(** The search URL the method builds is never used; nothing in the body
    raises on a [str], so the [except] branch is never taken. *)
Definition scrape_glassdoor_interviews (company_name : pystr) (role : option pystr)
  : pydict :=
  _generate_mock_glassdoor_data company_name role.

End WithRuntime.

Definition scrape_leetcode_company (company_name : pystr) : list (pystr * pyvalue) :=
  [ (py "technical_questions", PList [
       PStr (py "Two Sum - " ++ company_name ++ py " favorite");
       PStr (py "System Design - " ++ company_name ++ py " specific");
       PStr (py "Dynamic Programming - " ++ company_name ++ py " style") ]);
    (py "difficulty_distribution", PDict [
       (py "easy", PInt 30); (py "medium", PInt 50); (py "hard", PInt 20) ]);
    (py "frequency", PStr (py "high")) ].

Definition _scrape_geeksforgeeks (company_name : pystr) : list (pystr * pyvalue) :=
  [ (py "interview_experiences", PList [
       PStr (company_name ++ py " Software Engineer Interview Experience");
       PStr (company_name ++ py " Internship Interview Questions") ]);
    (py "technical_prep", strs ["Data Structures and Algorithms";
                                "System Design";
                                "Object-Oriented Programming"]);
    (py "tips", strs ["Practice coding problems daily";
                      "Understand company culture";
                      "Prepare behavioral questions"]) ].

Definition _scrape_interviewbit (company_name : pystr) : list (pystr * pyvalue) :=
  [ (py "common_questions", PList [
       PStr (py "Tell me about yourself - " ++ company_name ++ py " version");
       PStr (py "Why " ++ company_name ++ py "?");
       PStr (py "Technical problem solving approach") ]);
    (py "preparation_timeline", PStr (py "2-3 months"));
    (py "success_rate", PStr (py "65%")) ].

(** [d[k] = v] on a nested dictionary, which keeps the position of a key
    it already has. *)
Fixpoint setitem (d : list (pystr * pyvalue)) (k : pystr) (v : pyvalue)
  : list (pystr * pyvalue) :=
  match d with
  | [] => [(k, v)]
  | (k', v') :: r => if bool_decide (k' = k) then (k, v) :: r else (k', v') :: setitem r k v
  end.

Definition nonempty {A} (l : list A) : bool :=
  match l with [] => false | _ => true end.

Definition scrape_general_sources (company_name : pystr) (role : option pystr)
  : list (pystr * pyvalue) :=
  let sources_data := [] in
  let gfg_data := _scrape_geeksforgeeks company_name in
  let sources_data :=
    if nonempty gfg_data then setitem sources_data (py "geeksforgeeks") (PDict gfg_data)
    else sources_data in
  let ib_data := _scrape_interviewbit company_name in
  let sources_data :=
    if nonempty ib_data then setitem sources_data (py "interviewbit") (PDict ib_data)
    else sources_data in
  sources_data.

End Scraper.

(** ** [database.py]: class [DatabaseManager] over a MongoDB database *)

Definition pyvalue_eq_dec : forall a b : pyvalue, {a = b} + {a <> b}.
Proof.
  fix IH 1.
  decide equality;
    try apply Z.eq_dec;
    try apply Bool.bool_dec;
    try (apply List.list_eq_dec; apply N.eq_dec).
  - apply List.list_eq_dec, IH.
  - apply List.list_eq_dec. decide equality.
    apply List.list_eq_dec, N.eq_dec.
Defined.

#[global] Instance pyvalue_eq : EqDecision pyvalue := pyvalue_eq_dec.

Module Mongo.

(** The server's side: whether it answers, the two collections in natural
    order, and the counter the fresh [_id]s come from. *)
Record database := Database {
  reachable : bool;
  company_interviews : list pydict;
  reports : list pydict;
  next_id : Z
}.

Definition k_id := py "_id".

(** An equality clause of a filter: the field holds the text, or an array
    that contains it. *)
Definition field_matches (doc : pydict) (clause : pystr * pystr) : bool :=
  match doc !! clause.1 with
  | Some (PStr s) => bool_decide (s = clause.2)
  | Some (PList l) => bool_decide (PStr clause.2 ∈ l)
  | _ => false
  end.

Definition matches (query : list (pystr * pystr)) (doc : pydict) : bool :=
  forallb (field_matches doc) query.

(** Position of the first document the filter selects. *)
Fixpoint find_index (query : list (pystr * pystr)) (docs : list pydict) : option nat :=
  match docs with
  | [] => None
  | d :: r => if matches query d then Some O else S <$> find_index query r
  end.

Definition query_doc (query : list (pystr * pystr)) : pydict :=
  list_to_map ((fun kv => (kv.1, PStr kv.2)) <$> query).

(** [collection.find_one(query)]. *)
Definition find_one (query : list (pystr * pystr)) (reach : bool) (docs : list pydict)
  : result (option pydict) :=
  if reach then
    Ok (match find_index query docs with
        | Some i => docs !! i
        | None => None
        end)
  else Raise StoreError.

Record update_result := UpdateResult {
  matched_count : Z;
  upserted_id : option pyvalue
}.

(** [company_interviews.update_one(query, {'$set': fields}, upsert=True)]:
    the first selected document takes the fields; without one, a document
    made of the filter's clauses, then the fields, then a fresh [_id] unless
    the fields bring one, is added.  A time stamp is kept with the
    precision of [PDatetime].  That the server refuses a [$set] which
    changes an existing [_id] is not modelled. *)
Definition update_one_upsert (query : list (pystr * pystr)) (fields : pydict)
    (s : database) : result (update_result * database) :=
  if reachable s then
    match find_index query (company_interviews s) with
    | Some i =>
      Ok ({| matched_count := 1; upserted_id := None |},
          {| reachable := reachable s;
             company_interviews := alter (fun d => fields ∪ d) i (company_interviews s);
             reports := reports s;
             next_id := next_id s |})
    | None =>
      let doc := fields ∪ query_doc query ∪ {[k_id := PObjectId (next_id s)]} in
      Ok ({| matched_count := 0; upserted_id := doc !! k_id |},
          {| reachable := reachable s;
             company_interviews := company_interviews s ++ [doc];
             reports := reports s;
             next_id := (next_id s + 1)%Z |})
    end
  else Raise StoreError.

Definition set_docs (s : database) (docs : list pydict) : database :=
  {| reachable := reachable s; company_interviews := docs;
     reports := reports s; next_id := next_id s |}.

(** The driver's [InsertOneResult]. *)
Record insert_one_result := InsertOneResult {
  inserted_id : pyvalue
}.

(** A document of the collection already has this [_id]. *)
Definition has_id (v : pyvalue) (docs : list pydict) : bool :=
  existsb (fun d => bool_decide (d !! k_id = Some v)) docs.

(** [reports.insert_one(doc)]: the driver writes a fresh [_id] into the
    caller's document, unless it has one, before it sends it; the server
    refuses (the driver raises [DuplicateKeyError]) a document whose [_id]
    another document of the collection has, which a fresh [_id] never
    is. *)
Definition insert_one (doc : pydict) (s : database)
  : pydict * result (insert_one_result * database) :=
  let doc' := doc ∪ {[k_id := PObjectId (next_id s)]} in
  (doc',
   if reachable s then
     match doc !! k_id with
     | Some v =>
       if has_id v (reports s) then Raise StoreError
       else Ok ({| inserted_id := v |},
                {| reachable := reachable s;
                   company_interviews := company_interviews s;
                   reports := reports s ++ [doc'];
                   next_id := next_id s |})
     | None =>
       Ok ({| inserted_id := PObjectId (next_id s) |},
           {| reachable := reachable s;
              company_interviews := company_interviews s;
              reports := reports s ++ [doc'];
              next_id := (next_id s + 1)%Z |})
     end
   else Raise StoreError).

(** The values a field takes over a collection, an array counting by its
    elements, each value once, in order of first appearance. *)
Definition field_values (k : pystr) (doc : pydict) : list pyvalue :=
  match doc !! k with
  | Some (PList l) => l
  | Some v => [v]
  | None => []
  end.

Definition distinct (k : pystr) (reach : bool) (docs : list pydict)
  : result (list pyvalue) :=
  if reach then Ok (remove_dups (docs ≫= field_values k))
  else Raise StoreError.

(** [client.admin.command('ping')] and [collection.count_documents({})]. *)
Definition ping (s : database) : result unit :=
  if reachable s then Ok tt else Raise StoreError.

Definition count_documents (reach : bool) (docs : list pydict) : result Z :=
  if reach then Ok (Z.of_nat (length docs)) else Raise StoreError.

End Mongo.

Module DatabaseManager.

Import Mongo.

(** The manager: its [connected] flag and the database its client talks
    to. *)
Record t := Manager {
  connected : bool;
  db : database
}.

Definition set_db (self : t) (s : database) : t :=
  {| connected := connected self; db := s |}.

Definition __init__ (server : database) : t :=
  {| connected := false; db := server |}.

(** [connect]: the ping decides; [create_indexes] swallows its own
    errors and changes no document. *)
Definition connect (self : t) : result unit * t :=
  if reachable (db self)
  then (Ok tt, {| connected := true; db := db self |})
  else (Raise StoreError, {| connected := false; db := db self |}).

Definition disconnect (self : t) : t :=
  {| connected := false; db := db self |}.

Definition k_company_name := py "company_name".
Definition k_role := py "role".
Definition k_created_at := py "created_at".
Definition k_updated_at := py "updated_at".

Section WithRuntime.
Variable U : pyruntime.

(** The filter of the upsert, from the record's own fields. *)
Definition upsert_query (company_data : pydict) : result (list (pystr * pystr)) :=
  name <- Py.getitem company_data k_company_name ;;
  name <- Py.lower U name ;;
  role <- Py.lower U (Py.get company_data k_role (PStr (py "general"))) ;;
  Ok [(k_company_name, name); (k_role, role)].

(** [save_company_data(company_data)], called with the two readings
    of the clock it makes.  The result is what the call returns or raises,
    the caller's dictionary after the call, and the manager after the
    call. *)
Definition save_company_data (t_created t_updated : Z) (company_data : pydict)
    (self : t) : result update_result * pydict * t :=
  if negb (connected self) then (Raise NotConnected, company_data, self)
  else
    let company_data := <[k_created_at := PDatetime t_created]> company_data in
    let company_data := <[k_updated_at := PDatetime t_updated]> company_data in
    match (query <- upsert_query company_data ;;
           update_one_upsert query company_data (db self)) with
    | Ok (res, s) => (Ok res, company_data, set_db self s)
    | Raise e => (Raise e, company_data, self)
    end.

(** The filter of the lookup: the role joins it only when it is given and
    not empty. *)
Definition lookup_query (company_name : pystr) (role : option pystr)
  : list (pystr * pystr) :=
  (k_company_name, str_lower U company_name) ::
  match role with
  | Some (c :: r) => [(k_role, str_lower U (c :: r))]
  | _ => []
  end.

(** [get_company_data(company_name, role)]: the [_id] is popped from
    what is returned, and any error of the lookup becomes [None]. *)
Definition get_company_data (company_name : pystr) (role : option pystr) (self : t)
  : result (option pydict) :=
  if negb (connected self) then Raise NotConnected
  else
    try_except
      (found <- find_one (lookup_query company_name role)
                         (reachable (db self)) (company_interviews (db self)) ;;
       Ok (delete k_id <$> found))
      (fun _ => Ok None).

End WithRuntime.

(** [save_generated_report(report_data)], called with the reading of the
    clock it makes.  The result is the driver's result of the insertion or
    what the call raises, the caller's dictionary after the call, and the
    manager after the call. *)
Definition save_generated_report (t_created : Z) (report_data : pydict) (self : t)
  : result insert_one_result * pydict * t :=
  if negb (connected self) then (Raise NotConnected, report_data, self)
  else
    let report_data := <[k_created_at := PDatetime t_created]> report_data in
    let '(report_data, outcome) := insert_one report_data (db self) in
    match outcome with
    | Ok (result, s) => (Ok result, report_data, set_db self s)
    | Raise e => (Raise e, report_data, self)
    end.

Definition get_all_companies (self : t) : result (list pyvalue) :=
  if negb (connected self) then Ok []
  else
    try_except
      (distinct k_company_name (reachable (db self)) (company_interviews (db self)))
      (fun _ => Ok []).

(** [health_check()]: the whole body is inside [try], and a bare [except]
    answers [False]. *)
Definition health_check (self : t) : result bool :=
  try_except
    (if negb (connected self) then Ok false
     else _ <- ping (db self) ;; Ok true)
    (fun _ => Ok false).

Definition k_companies_count := py "companies_count".
Definition k_reports_count := py "reports_count".
Definition k_connection_status := py "connection_status".

(** [get_database_stats()]. *)
Definition get_database_stats (self : t) : result pydict :=
  if negb (connected self) then Ok ∅
  else
    try_except
      (companies <- count_documents (reachable (db self)) (company_interviews (db self)) ;;
       reports <- count_documents (reachable (db self)) (reports (db self)) ;;
       Ok (<[k_companies_count := PInt companies]>
           (<[k_reports_count := PInt reports]>
           (<[k_connection_status := PStr (py "connected")]> ∅))))
      (fun _ => Ok (<[k_connection_status := PStr (py "error")]> ∅)).

End DatabaseManager.

(** ** [api.py]: the aggregation and the [/research] route *)

Module Api.

Record ResearchRequest := Request {
  company_name : pystr;
  role : option pystr;
  experience_level : option pystr;
  days_to_prepare : Z
}.

(** The dictionary [response_data] of the route, field by field. *)
Record ResponseData := Response {
  r_company_name : pystr;
  r_role : option pystr;
  r_interview_data : pydict;
  r_ai_synthesis : pydict;
  r_custom_questions : list pyvalue;
  r_study_plan : pydict;
  r_generated_at : pystr
}.

(** What [background_tasks.add_task] was given: the tasks run after the
    response has been produced. *)
Inductive task :=
| SaveCompanyData (interview_data : pydict)
| SaveGeneratedReport (response_data : ResponseData).

Definition k_sources := py "sources".

(** [scraped_data['sources'][name] = True]. *)
Definition mark_source (scraped_data : pydict) (name : pystr) : result pydict :=
  sources <- Py.getitem scraped_data k_sources ;;
  match sources with
  | PDict pairs =>
    Ok (<[k_sources := PDict (Scraper.setitem pairs name (PBool true))]> scraped_data)
  | _ => Raise TypeError
  end.

Definition role_value (role : option pystr) : pyvalue :=
  match role with
  | Some r => PStr r
  | None => PNone
  end.

(** [ResearchResponse], built from the entries of [response_data] as its
    keyword arguments: the response model declares the
    company name, the role and the clock text [str], the three records
    [dict] and the questions [List[str]], and a value that is not of the
    type declared for it makes the construction raise.  Of the seven values
    the route passes, the company name, the clock text and the three
    records are always of their types; the role is [None] when the request
    gave [null], and an item of the question list is whatever the model's
    JSON held.  The model built holds the seven values as they are. *)
Definition ResearchResponse (response_data : ResponseData) : result ResponseData :=
  match r_role response_data with
  | None => Raise ValidationError
  | Some _ =>
    if forallb Py.is_str (r_custom_questions response_data) then Ok response_data
    else Raise ValidationError
  end.

Section WithRuntime.
Variable U : pyruntime.

Definition scrape_company_data (company_name : pystr) (role : option pystr)
  : result pydict :=
  let scraped_data : pydict :=
    <[py "company_name" := PStr company_name]>
    (<[py "role" := role_value role]>
    (<[k_sources := PDict []]> ∅)) in
  let glassdoor_data := Scraper.scrape_glassdoor_interviews U company_name role in
  scraped_data <-
    (if bool_decide (glassdoor_data = ∅) then Ok scraped_data
     else mark_source (glassdoor_data ∪ scraped_data) (py "glassdoor")) ;;
  let leetcode_data := Scraper.scrape_leetcode_company company_name in
  scraped_data <-
    (if Scraper.nonempty leetcode_data
     then mark_source (<[py "leetcode_data" := PDict leetcode_data]> scraped_data)
                      (py "leetcode")
     else Ok scraped_data) ;;
  let general_data := Scraper.scrape_general_sources company_name role in
  scraped_data <-
    (if Scraper.nonempty general_data
     then mark_source (<[py "general_sources" := PDict general_data]> scraped_data)
                      (py "general")
     else Ok scraped_data) ;;
  Ok scraped_data.

(** The cache decision: [if not cached_data] takes both [None] and an
    empty document for a miss.  On a miss the fresh record is used and its
    save is scheduled; on a hit the stored record is used as it is. *)
Definition obtain_interview_data (request : ResearchRequest)
    (cached_data : option pydict) : result (pydict * list task) :=
  match cached_data with
  | Some d =>
    if bool_decide (d = ∅) then
      interview_data <- scrape_company_data (company_name request) (role request) ;;
      Ok (interview_data, [SaveCompanyData interview_data])
    else Ok (d, [])
  | None =>
    interview_data <- scrape_company_data (company_name request) (role request) ;;
    Ok (interview_data, [SaveCompanyData interview_data])
  end.

(** [research_company(request, background_tasks)], with the outcomes of
    the three model calls and the text of the clock reading
    [str(datetime.datetime.utcnow())].  The result is the response model
    and the tasks added, in order; any exception, that of the response
    model included, leaves as an [HTTPException] with status 500. *)
Definition research_company (synthesis_reply questions_reply plan_reply : model_reply)
    (generated_at : pystr) (request : ResearchRequest) (db_manager : DatabaseManager.t)
  : result (ResponseData * list task) :=
  try_except
    (cached_data <- DatabaseManager.get_company_data U
                      (company_name request) (role request) db_manager ;;
     obtained <- obtain_interview_data request cached_data ;;
     let '(interview_data, tasks) := obtained in
     ai_synthesis <- AIProcessor.synthesize_interview_data U synthesis_reply interview_data ;;
     custom_questions <- AIProcessor.generate_custom_questions questions_reply
                           (company_name request) (role request)
                           (experience_level request) ;;
     study_plan <- AIProcessor.create_study_plan plan_reply interview_data
                     (days_to_prepare request) ;;
     let response_data :=
       {| r_company_name := company_name request;
          r_role := role request;
          r_interview_data := interview_data;
          r_ai_synthesis := ai_synthesis;
          r_custom_questions := custom_questions;
          r_study_plan := study_plan;
          r_generated_at := generated_at |} in
     let tasks := tasks ++ [SaveGeneratedReport response_data] in
     response <- ResearchResponse response_data ;;
     Ok (response, tasks))
    (fun e => Raise (HTTPException 500 e)).

End WithRuntime.

(** The route [/companies]: [get_companies()]. *)
Definition get_companies (db_manager : DatabaseManager.t) : result pydict :=
  try_except
    (companies <- DatabaseManager.get_all_companies db_manager ;;
     Ok (<[py "companies" := PList companies]> ∅))
    (fun e => Raise (HTTPException 500 e)).

End Api.

(** ** Vocabulary of the specification *)

Module Guide.

Import AIProcessor.

(** The six fields of a synthesized guide. *)
Definition keys : list pystr :=
  [k_overview; k_technical_areas; k_questions; k_strategy; k_timeline; k_tips].

Definition key_set : gset pystr := list_to_set keys.

Definition field_is (p : pyvalue -> bool) (g : pydict) (k : pystr) : bool :=
  match g !! k with
  | Some v => p v
  | None => false
  end.

(** All six fields present with their types: text for the overview, the
    strategy and the timeline, lists of text for the other three. *)
Definition typed (g : pydict) : Prop :=
  field_is Py.is_str g k_overview = true /\
  field_is Py.is_list_of_str g k_technical_areas = true /\
  field_is Py.is_list_of_str g k_questions = true /\
  field_is Py.is_str g k_strategy = true /\
  field_is Py.is_str g k_timeline = true /\
  field_is Py.is_list_of_str g k_tips = true.

(** The type a field must have, by its key. *)
Definition typed_at (k : pystr) (v : pyvalue) : bool :=
  if is_list_field k then Py.is_list_of_str v else Py.is_str v.

(** What the section loop of the heuristic parse keeps true of the pair of
    [parsed] and [current_section]: exactly the six keys, each value of
    its type, and a current field among the six. *)
Definition loop_inv (st : pydict * pystr) : Prop :=
  dom st.1 = key_set /\
  map_Forall (fun k v => typed_at k v = true) st.1 /\
  st.2 ∈ keys.

(** Text in the sense of Unicode: every code point is a scalar value, that
    is, at most U+10FFFF and not a surrogate. *)
Definition scalar (c : N) : bool :=
  (c <? 55296) || ((57343 <? c) && (c <=? 1114111)).

Definition text (s : pystr) : Prop := Forall (fun c => scalar c = true) s.

Definition text_value (v : pyvalue) : Prop :=
  match v with
  | PStr s => text s
  | PList l => Forall (fun x => match x with PStr s => text s | _ => False end) l
  | _ => False
  end.

(** A well-formed guide, given by the items of its dictionary in their
    order of insertion: the six keys, each once, in any order, each with a
    value of its type, all of it text. *)
Definition well_formed (items : list (pystr * pyvalue)) : Prop :=
  items.*1 ≡ₚ keys /\
  Forall (fun kv => typed_at kv.1 kv.2 = true /\ text_value kv.2) items.

(** Modelled from the spec: the serialization of a guide in the strict
    structured format.  The repository has no serializer; the format is the
    JSON that [_parse_ai_response] tries first, and the text is the one
    [json.dumps] writes for the guide's dictionary. *)
Definition serialize (items : list (pystr * pyvalue)) : result pystr :=
  Json.dumps (PDict items).

(** The six fields with the defaults [data.get] is given, and the pair
    [guide_of_json] makes of one of them. *)
Definition fields : list (pystr * pyvalue) :=
  [ (k_overview, PStr []); (k_technical_areas, PList []); (k_questions, PList []);
    (k_strategy, PStr []); (k_timeline, PStr []); (k_tips, PList []) ].

Definition field_of (items : list (pystr * pyvalue)) (kd : pystr * pyvalue)
  : pystr * pyvalue :=
  (kd.1, match Py.assoc_last kd.1 items None with Some x => x | None => kd.2 end).

End Guide.

(** Measures of the encoder's output, used to show that the scanner's bound
    is enough for it. *)
Module Encoding.

Import Json.

Definition strings (l : list pystr) : list pyvalue := PStr <$> l.

(** Steps the scanner needs for a field value of a guide. *)
Definition need (v : pyvalue) : nat :=
  match v with
  | PList l => S (S (length l))
  | _ => 1
  end.

Definition enc (v : pyvalue) : pystr := default [] (encode v).

Definition member_text (kv : pystr * pyvalue) : pystr :=
  encode_string kv.1 ++ py ": " ++ enc kv.2.

Fixpoint sum_need (items : list (pystr * pyvalue)) : nat :=
  match items with
  | [] => 0
  | kv :: rest => S (need kv.2) + sum_need rest
  end.

Definition member_ok (kv : pystr * pyvalue) : Prop :=
  Guide.text kv.1 /\ Guide.text_value kv.2.

End Encoding.

(** Vocabulary for the upsert. *)
Module Upsert.

Import Mongo DatabaseManager.

Definition lowercase (U : pyruntime) (v : pyvalue) : Prop :=
  match v with
  | PStr s => str_lower U s = s
  | _ => True
  end.

(** The record's key is already in the form the filter is built in: its
    company name and its role (or the default role) are their own lower
    case. *)
Definition key_normalised (U : pyruntime) (r : pydict) : Prop :=
  (forall v, r !! k_company_name = Some v -> lowercase U v) /\
  lowercase U (Py.get r k_role (PStr (py "general"))).

(** The record as [save_company_data] leaves it when connected. *)
Definition stamped (t_created t_updated : Z) (r : pydict) : pydict :=
  <[k_updated_at := PDatetime t_updated]> (<[k_created_at := PDatetime t_created]> r).

Definition same_but_timestamps (d1 d2 : pydict) : Prop :=
  forall k, k <> k_created_at -> k <> k_updated_at -> d2 !! k = d1 !! k.

Definition documents (self : DatabaseManager.t) : list pydict :=
  company_interviews (db self).

End Upsert.

(** Vocabulary for the heuristic parse. *)
Module Heuristic.

(** A line the comprehension of the section loop keeps. *)
Definition keeps (U : pyruntime) (line : pystr) : bool :=
  match PyStr.strip line with
  | [] => false
  | c :: t => PyStr.startswith (py "-") (c :: t) || chr_isdigit U c
  end.

(** A section in which one of the five keywords occurs. *)
Definition has_keyword (U : pyruntime) (section : pystr) : bool :=
  let lower := str_lower U section in
  PyStr.contains (py "technical areas") lower
  || PyStr.contains (py "questions") lower
  || PyStr.contains (py "strategy") lower
  || PyStr.contains (py "timeline") lower
  || PyStr.contains (py "tips") lower.

(** A reply the structured parse does not take: it is not JSON, or is
    JSON but no object. *)
Definition not_an_object (response : pystr) : Prop :=
  forall pairs, Json.loads response <> Ok (PDict pairs).

End Heuristic.

(** Vocabulary for the question generator. *)
Module Questions.

(** A reply that, if it is a JSON list, is a list of strings. *)
Definition string_items (reply : model_reply) : Prop :=
  match reply with
  | Ok text =>
    forall items, Json.loads text = Ok (PList items) -> forallb Py.is_str items = true
  | Raise _ => True
  end.

End Questions.

(** Vocabulary for the aggregation. *)
Module Aggregation.

Definition all_serializable (d : pydict) : Prop :=
  map_Forall (fun _ v => Py.serializable v = true) d.

(** A record under aggregation: everything in it can be written into a
    prompt, and its sources are a dictionary. *)
Definition aggregating (d : pydict) : Prop :=
  all_serializable d /\
  exists pairs, d !! Api.k_sources = Some (PDict pairs) /\
                forallb (fun kv => Py.serializable kv.2) pairs = true.

(** The three sources, marked in the order they are asked. *)
Definition all_sources : list (pystr * pyvalue) :=
  [ (py "glassdoor", PBool true); (py "leetcode", PBool true);
    (py "general", PBool true) ].

End Aggregation.

(** ** Concrete inputs *)

Module Examples.

Import Mongo DatabaseManager.

(** A server that answers and holds nothing yet, a manager that never
    connected to it and one that did. *)
Definition empty_server : database :=
  {| reachable := true; company_interviews := []; reports := []; next_id := 0 |}.

Definition fresh_manager : DatabaseManager.t := __init__ empty_server.

Definition connected_manager : DatabaseManager.t := (connect fresh_manager).2.

(** The same manager once the server has stopped answering. *)
Definition unreachable_manager : DatabaseManager.t :=
  {| connected := true;
     db := {| reachable := false; company_interviews := []; reports := []; next_id := 0 |} |}.

Definition google_record : pydict :=
  <[k_company_name := PStr (py "Google")]>
  (<[k_role := PStr (py "Software Engineer")]> ∅).

Definition lowercase_record : pydict :=
  <[k_company_name := PStr (py "google")]>
  (<[k_role := PStr (py "software engineer")]> ∅).

(** A connected manager whose store holds one document that carries no
    time stamp, as a document written by another program may. *)
Definition stocked_manager : DatabaseManager.t :=
  {| connected := true;
     db := {| reachable := true; company_interviews := [lowercase_record];
              reports := []; next_id := 1 |} |}.

Definition google_request : Api.ResearchRequest :=
  {| Api.company_name := py "Google";
     Api.role := Some (py "Software Engineer");
     Api.experience_level := Some (py "Mid-level");
     Api.days_to_prepare := 30 |}.

(** A section headed by the tips keyword with one item, marked by the
    bullet U+2022 or by a hyphen. *)
Definition tips_with_bullet : pystr :=
  py "Success Tips:" ++ [10; AIProcessor.bullet] ++ py " Use STAR method".

Definition tips_with_hyphen : pystr :=
  py "Success Tips:" ++ [10; 45] ++ py " Use STAR method".

(** A guide with all six fields, as the items of its dictionary. *)
Definition sample_guide : list (pystr * pyvalue) :=
  [ (AIProcessor.k_overview, PStr (py "Four rounds, two of them on-site"));
    (AIProcessor.k_technical_areas, PList [PStr (py "Graphs"); PStr (py "SQL")]);
    (AIProcessor.k_questions, PList [PStr (dq "Why 'us'?")]);
    (AIProcessor.k_strategy, PStr (py "Practice daily") );
    (AIProcessor.k_timeline, PStr ([50; 8211; 52] ++ py " weeks"));
    (AIProcessor.k_tips, PList []) ].

End Examples.

(** * Results *)

Module NormalizerFacts.
Import AIProcessor Guide.

Section WithRuntime.
Variable U : pyruntime.

Lemma route_in_keys current section :
  current ∈ keys -> route U current section ∈ keys.
Proof.
  intros Hc. unfold route, keys.
  repeat destruct (PyStr.contains _ _); try done;
    rewrite !elem_of_cons; tauto.
Qed.

Lemma is_item_ok line : exists b, is_item U line = Ok b.
Proof.
  unfold is_item. destruct (PyStr.strip line) as [|c t]; [by eexists|].
  destruct (PyStr.startswith _ _); by eexists.
Qed.

Lemma items_of_ok lines :
  exists items, items_of U lines = Ok items /\ forallb Py.is_str items = true.
Proof.
  induction lines as [|line rest [items [IH Hs]]]; [by exists []|].
  destruct (is_item_ok line) as [b Hb]. simpl. rewrite Hb, IH. simpl.
  destruct b; eexists; split; done.
Qed.

Lemma parse_section_inv st section :
  loop_inv st -> exists st', parse_section U st section = Ok st' /\ loop_inv st'.
Proof.
  destruct st as [parsed current]. intros (Hdom & Hty & Hcur). simpl in *.
  unfold parse_section.
  pose proof (route_in_keys current section Hcur) as Hr.
  set (k := route U current section) in *.
  assert (Hk : k ∈ dom parsed) by (rewrite Hdom; by apply elem_of_list_to_set).
  destruct (is_list_field k) eqn:Hlf.
  - destruct (items_of_ok (PyStr.split [10] section)) as (items & Hi & Hs).
    rewrite Hi. simpl.
    apply elem_of_dom in Hk as [v Hv].
    unfold extend, Py.getitem. rewrite Hv. simpl.
    pose proof (Hty k v Hv) as Htv. unfold typed_at in Htv. rewrite Hlf in Htv.
    destruct v; try discriminate. simpl in Htv.
    eexists. split; [done|]. repeat split; simpl; try done.
    + rewrite dom_insert_L, <- Hdom. apply elem_of_dom_2 in Hv.
      apply subseteq_union_1_L. by apply singleton_subseteq_l.
    + apply map_Forall_insert_2; [|done].
      unfold typed_at. rewrite Hlf. simpl. rewrite forallb_app, Htv, Hs. done.
  - eexists. split; [done|]. repeat split; simpl; try done.
    + rewrite dom_insert_L, <- Hdom.
      apply subseteq_union_1_L. by apply singleton_subseteq_l.
    + apply map_Forall_insert_2; [|done].
      unfold typed_at. rewrite Hlf. done.
Qed.

Lemma parse_sections_inv sections st :
  loop_inv st -> exists st', parse_sections U st sections = Ok st' /\ loop_inv st'.
Proof.
  revert st. induction sections as [|section rest IH]; intros st Hst.
  - by exists st.
  - destruct (parse_section_inv st section Hst) as (st1 & H1 & Hinv).
    simpl. rewrite H1. simpl. by apply IH.
Qed.

Lemma empty_guide_inv : loop_inv (empty_guide, k_overview).
Proof.
  split; [|split]; simpl.
  - compute_done.
  - unfold empty_guide.
    repeat (apply map_Forall_insert_2; [compute_done|]). apply map_Forall_empty.
  - unfold keys. rewrite !elem_of_cons. tauto.
Qed.

Lemma inv_typed st : loop_inv st -> typed st.1.
Proof.
  destruct st as [g c]. intros (Hdom & Hty & _). simpl in *.
  assert (H : forall k, k ∈ keys -> field_is (typed_at k) g k = true).
  { intros k Hk. assert (Hd : k ∈ dom g) by (rewrite Hdom; by apply elem_of_list_to_set).
    apply elem_of_dom in Hd as [v Hv]. unfold field_is. rewrite Hv. by apply Hty. }
  unfold typed. repeat split; apply H; unfold keys; rewrite !elem_of_cons; tauto.
Qed.

End WithRuntime.
End NormalizerFacts.

Import AIProcessor Guide NormalizerFacts.

Lemma heuristic_parse_typed U response :
  exists st, parse_sections U (empty_guide, k_overview) (PyStr.split [10; 10] response) = Ok st
    /\ dom st.1 = key_set /\ typed st.1.
Proof.
  destruct (parse_sections_inv U (PyStr.split [10; 10] response) _ (empty_guide_inv))
    as (st & Hst & Hinv).
  exists st. split; [done|]. split; [apply Hinv|by apply inv_typed].
Qed.

Lemma guide_of_json_dom data g : guide_of_json data = Ok g -> dom g = key_set.
Proof.
  destruct data; try discriminate. unfold guide_of_json. simpl.
  intros [= <-]. rewrite !dom_insert_L, dom_empty_L. reflexivity.
Qed.

Lemma parse_ai_response_returns U response :
  exists g, _parse_ai_response U response = Ok g.
Proof.
  destruct (heuristic_parse_typed U response) as (st & Hst & _).
  unfold _parse_ai_response.
  destruct (Json.loads response) as [data|e]; simpl; [|rewrite Hst; by eexists].
  destruct data; simpl; try (rewrite Hst; by eexists). by eexists.
Qed.

(** C1, as amended.  For every input, [_parse_ai_response] returns, without
    raising, a dictionary with exactly the six keys.  When the input is not a
    JSON object, the overview, the strategy and the timeline are strings and
    the technical areas, the questions and the tips are lists of strings.
    When the input is a JSON object, each field is the value the object has
    under that key, of whatever type, or the empty default. *)
Theorem parse_ai_response_complete U response :
  exists g, _parse_ai_response U response = Ok g /\ dom g = key_set /\
    match Json.loads response with
    | Ok (PDict pairs) => guide_of_json (PDict pairs) = Ok g
    | _ => typed g
    end.
Proof.
  destruct (heuristic_parse_typed U response) as (st & Hst & Hdom & Hty).
  unfold _parse_ai_response.
  destruct (Json.loads response) as [data|e]; simpl.
  - destruct data; simpl; try (rewrite Hst; by exists st.1).
    eexists. split; [reflexivity|]. split; [|reflexivity].
    rewrite !dom_insert_L, dom_empty_L. reflexivity.
  - rewrite Hst. by exists st.1.
Qed.

(** C1 as stated fails: on a JSON object whose overview is a number, the
    overview returned is that number, not a string. *)
Lemma parse_ai_response_untyped_overview :
  exists g, _parse_ai_response ascii_runtime (dq "{'overview': 1}") = Ok g /\
            g !! k_overview = Some (PInt 1) /\ ~ typed g.
Proof.
  assert (Hl : Json.loads (dq "{'overview': 1}") = Ok (PDict [(k_overview, PInt 1)]))
    by (vm_compute; reflexivity).
  eexists. split; [|split].
  - unfold _parse_ai_response. rewrite Hl. reflexivity.
  - apply lookup_insert_eq.
  - intros [H _]. unfold field_is in H. rewrite lookup_insert_eq in H. discriminate.
Qed.

Module JsonFacts.
Import Json Guide Encoding.

Lemma hexval_hexdigit d : d < 16 -> hexval (hexdigit d) = Some d.
Proof.
  intros H. unfold hexdigit, hexval.
  destruct (d <? 10) eqn:Hd.
  - apply N.ltb_lt in Hd.
    replace ((48 <=? 48 + d) && (48 + d <=? 57)) with true
      by (symmetry; apply andb_true_iff; split; apply N.leb_le; lia).
    f_equal. lia.
  - apply N.ltb_ge in Hd.
    replace ((48 <=? 87 + d) && (87 + d <=? 57)) with false
      by (symmetry; apply andb_false_iff; right; apply N.leb_gt; lia).
    replace ((97 <=? 87 + d) && (87 + d <=? 102)) with true
      by (symmetry; apply andb_true_iff; split; apply N.leb_le; lia).
    f_equal. lia.
Qed.

Lemma base16_digits u : u < 65536 ->
  4096 * (u / 4096) + 256 * (u / 256 mod 16) + 16 * (u / 16 mod 16) + u mod 16 = u.
Proof.
  intros H.
  replace (u / 4096) with (u / 16 / 16 / 16) by (rewrite !N.Div0.div_div; reflexivity).
  replace (u / 256) with (u / 16 / 16) by (rewrite !N.Div0.div_div; reflexivity).
  pose proof (N.div_mod' u 16) as H1.
  pose proof (N.div_mod' (u / 16) 16) as H2.
  pose proof (N.div_mod' (u / 16 / 16) 16) as H3.
  assert (H4 : u / 16 / 16 / 16 mod 16 = u / 16 / 16 / 16).
  { apply N.mod_small. rewrite !N.Div0.div_div.
    apply N.Div0.div_lt_upper_bound. exact H. }
  lia.
Qed.

Lemma hex4_u_escape u : u < 65536 ->
  hex4 (hexdigit (u / 4096)) (hexdigit (u / 256 mod 16))
       (hexdigit (u / 16 mod 16)) (hexdigit (u mod 16)) = Some u.
Proof.
  intros H. unfold hex4.
  rewrite !hexval_hexdigit;
    try (apply N.mod_lt; discriminate);
    try (apply N.Div0.div_lt_upper_bound; exact H).
  f_equal. by apply base16_digits.
Qed.

(** How the scanner reads what the encoder writes, one piece at a time. *)
Lemma scan_plain c r acc :
  c <> 34 -> c <> 92 -> 31 < c -> scanstring (c :: r) acc = scanstring r (c :: acc).
Proof.
  intros H1 H2 H3. simpl.
  apply N.eqb_neq in H1, H2. rewrite H1, H2.
  apply N.leb_gt in H3. by rewrite H3.
Qed.

Lemma scan_letter e x r acc :
  e <> 117 -> unescape e = Some x ->
  scanstring (92 :: e :: r) acc = scanstring r (x :: acc).
Proof.
  intros H1 H2. simpl. apply N.eqb_neq in H1. by rewrite H1, H2.
Qed.

Lemma scan_u u r acc :
  u < 65536 -> is_high_surrogate u = false ->
  scanstring (u_escape u ++ r) acc = scanstring r (u :: acc).
Proof.
  intros H1 H2. unfold u_escape. simpl.
  rewrite (hex4_u_escape u H1), H2. done.
Qed.

Lemma scan_pair hi lo r acc :
  hi < 65536 -> lo < 65536 ->
  is_high_surrogate hi = true -> is_low_surrogate lo = true ->
  scanstring (u_escape hi ++ u_escape lo ++ r) acc
  = scanstring r (join_surrogates hi lo :: acc).
Proof.
  intros H1 H2 H3 H4. unfold u_escape. simpl.
  rewrite (hex4_u_escape hi H1), H3, (hex4_u_escape lo H2), H4. done.
Qed.

Lemma scan_escape_char c r acc :
  scalar c = true ->
  scanstring (escape_char c ++ r) acc = scanstring r (c :: acc).
Proof.
  intros Hc. unfold escape_char.
  repeat match goal with
  | |- context [if ?c =? ?k then _ else _] =>
    destruct (N.eqb_spec c k) as [->|?]; [reflexivity|]
  end.
  destruct ((32 <=? c) && (c <=? 126)) eqn:Hp.
  { apply andb_true_iff in Hp as [Hp1%N.leb_le Hp2]. apply scan_plain; [done|done|lia]. }
  unfold scalar in Hc.
  destruct (c <? 65536) eqn:H16.
  - apply N.ltb_lt in H16. apply scan_u; [done|].
    unfold is_high_surrogate.
    apply orb_true_iff in Hc as [Hc%N.ltb_lt|[Hc%N.ltb_lt _]%andb_true_iff].
    + apply andb_false_iff. left. apply N.leb_gt. lia.
    + apply andb_false_iff. right. apply N.leb_gt. lia.
  - apply N.ltb_ge in H16.
    apply orb_true_iff in Hc as [Hc%N.ltb_lt|[_ Hc%N.leb_le]%andb_true_iff]; [lia|].
    pose proof (N.div_mod' (c - 65536) 1024) as Hdm.
    assert (Hq : (c - 65536) / 1024 < 1024)
      by (apply N.Div0.div_lt_upper_bound; lia).
    assert (Hm : (c - 65536) mod 1024 < 1024) by (apply N.mod_lt; discriminate).
    revert Hdm Hq Hm.
    generalize ((c - 65536) / 1024) ((c - 65536) mod 1024). intros q m Hdm Hq Hm.
    rewrite <- app_assoc, scan_pair.
    + do 2 f_equal. unfold join_surrogates. lia.
    + lia.
    + lia.
    + unfold is_high_surrogate. apply andb_true_iff; split; apply N.leb_le; lia.
    + unfold is_low_surrogate. apply andb_true_iff; split; apply N.leb_le; lia.
Qed.

Lemma scan_encoded s rest acc :
  text s -> scanstring (flat_map escape_char s ++ 34 :: rest) acc = Some (rev acc ++ s, rest).
Proof.
  intros Hs. revert acc. induction Hs as [|c s Hc Hs IH]; intros acc; simpl.
  - by rewrite app_nil_r.
  - rewrite <- app_assoc, scan_escape_char, IH by done.
    simpl. by rewrite <- app_assoc.
Qed.

Lemma encode_string_app s rest :
  encode_string s ++ rest = 34 :: flat_map escape_char s ++ 34 :: rest.
Proof. unfold encode_string. simpl. by rewrite <- app_assoc. Qed.

Lemma value_string n s rest :
  text s -> value (S n) (encode_string s ++ rest) = Some (PStr s, rest).
Proof.
  intros Hs. rewrite encode_string_app. simpl.
  by rewrite (scan_encoded s rest [] Hs).
Qed.

Lemma skip_ws_head c r : is_ws c = false -> skip_ws (c :: r) = c :: r.
Proof. intros H. unfold skip_ws. simpl. by rewrite H. Qed.

Lemma skip_ws_space r : skip_ws (32 :: r) = skip_ws r.
Proof. reflexivity. Qed.

(** The text of a non-empty sequence of parts starts like its first
    part. *)
Lemma join_cons sep x parts rest :
  exists t, join sep (x :: parts) ++ rest = x ++ t /\
    t = match parts with [] => rest | _ => sep ++ join sep parts ++ rest end.
Proof.
  destruct parts; simpl.
  - by eexists.
  - eexists. split; [|reflexivity]. by rewrite <- !app_assoc.
Qed.

Lemma elements_S n s acc :
  elements (S n) s acc =
  match value n s with
  | None => None
  | Some (v, r) =>
    match skip_ws r with
    | c :: r' =>
      if c =? 93 then Some (PList (rev (v :: acc)), r')
      else if c =? 44 then elements n (skip_ws r') (v :: acc)
      else None
    | [] => None
    end
  end.
Proof. reflexivity. Qed.

Lemma skip_ws_encoded s t : skip_ws (encode_string s ++ t) = encode_string s ++ t.
Proof. reflexivity. Qed.

Lemma elements_strings l : forall n acc rest,
  Forall text l -> l <> [] -> (length l < n)%nat ->
  elements n (join (py ", ") (encode_string <$> l) ++ 93 :: rest) acc
  = Some (PList (rev acc ++ strings l), rest).
Proof.
  induction l as [|x l IH]; intros n acc rest Hl Hne Hn; [done|].
  apply Forall_cons in Hl as [Hx Hl].
  destruct n as [|[|n]]; simpl in Hn; try lia.
  rewrite fmap_cons.
  destruct (join_cons (py ", ") (encode_string x) (encode_string <$> l) (93 :: rest))
    as (t & -> & Ht).
  rewrite elements_S, value_string by done.
  destruct l as [|y l]; subst t.
  - reflexivity.
  - change (py ", ") with [44; 32].
    rewrite (fmap_cons encode_string y l). cbv iota. cbn [app].
    rewrite skip_ws_head by done.
    change (44 =? 93) with false. change (44 =? 44) with true. cbv iota.
    rewrite skip_ws_space.
    destruct (join_cons [44; 32] (encode_string y) (encode_string <$> l) (93 :: rest))
      as (t & Heq & _).
    rewrite Heq, skip_ws_encoded, <- Heq, <- fmap_cons.
    change [44; 32] with (py ", ").
    rewrite IH; [|done|done|simpl in *; lia].
    simpl. by rewrite <- app_assoc.
Qed.

Lemma text_value_list l :
  Forall (fun x => match x with PStr s => text s | _ => False end) l ->
  exists ss, l = strings ss /\ Forall text ss.
Proof.
  induction 1 as [|x l Hx _ (ss & -> & Hss)]; [by exists []|].
  destruct x; try done. exists (s :: ss). split; [done|by constructor].
Qed.

Lemma encode_strings ss :
  encode (PList (strings ss))
  = Some ([91] ++ join (py ", ") (encode_string <$> ss) ++ [93]).
Proof.
  cbn [encode].
  match goal with |- match ?f _ with _ => _ end = _ =>
    assert (H : f (strings ss) = Some (encode_string <$> ss)) end.
  { unfold strings. induction ss as [|x ss IH]; [done|].
    simpl. unfold fmap in IH. by rewrite IH. }
  by rewrite H.
Qed.

Lemma join_length sep parts :
  Forall (fun p => (1 <= length p)%nat) parts ->
  (length parts <= length (join sep parts))%nat.
Proof.
  induction 1 as [|x parts Hx _ IH]; [done|].
  destruct parts; simpl in *; [lia|]. rewrite !length_app. simpl in IH. lia.
Qed.

Lemma value_S_array n r :
  value (S n) (91 :: r) =
  match skip_ws r with
  | c' :: r' => if c' =? 93 then Some (PList [], r') else elements n (c' :: r') []
  | [] => None
  end.
Proof. reflexivity. Qed.

(** A field value of a guide is written as a text that the scanner reads
    back, given as many steps as the value has items, and two more. *)
Lemma value_encoded v :
  text_value v ->
  exists t, encode v = Some t /\
    (forall n rest, (need v <= n)%nat -> value n (t ++ rest) = Some (v, rest)) /\
    (forall rest, skip_ws (t ++ rest) = t ++ rest) /\
    (need v <= S (length t))%nat.
Proof.
  destruct v as [| | | |s|l| | |]; try done; intros Hv; simpl in Hv.
  - exists (encode_string s). split; [done|]. split; [|split].
    + intros [|n] rest Hn; [simpl in Hn; lia|]. by apply value_string.
    + done.
    + simpl. lia.
  - destruct (text_value_list l Hv) as (ss & -> & Hss).
    eexists. split; [apply encode_strings|]. split; [|split].
    + intros [|n] rest Hn; [simpl in Hn; lia|].
      cbn [app]. rewrite value_S_array.
      destruct ss as [|x ss]; [reflexivity|].
      destruct (join_cons (py ", ") (encode_string x) (encode_string <$> ss) [93])
        as (t & Heq & _).
      rewrite <- app_assoc. cbn [app].
      rewrite fmap_cons.
      destruct (join_cons (py ", ") (encode_string x) (encode_string <$> ss) (93 :: rest))
        as (t' & Heq' & _).
      rewrite Heq', skip_ws_encoded.
      change (encode_string x ++ t') with (34 :: (flat_map escape_char x ++ [34]) ++ t').
      cbv iota. change (34 =? 93) with false. cbv iota.
      change (34 :: (flat_map escape_char x ++ [34]) ++ t') with (encode_string x ++ t').
      rewrite <- Heq', <- fmap_cons.
      rewrite elements_strings; [done|done|done|].
      unfold strings in Hn. simpl in Hn. rewrite length_fmap in Hn. simpl. lia.
    + reflexivity.
    + simpl. unfold strings. rewrite length_fmap, length_app.
      pose proof (join_length (py ", ") (encode_string <$> ss)) as Hj.
      rewrite length_fmap in Hj. simpl.
      assert ((length ss <= length (join (py ", ") (encode_string <$> ss)))%nat); [|lia].
      apply Hj. apply Forall_fmap, Forall_true. intros x. simpl. lia.
Qed.

Lemma encode_object items :
  Forall member_ok items ->
  encode (PDict items) = Some ([123] ++ join (py ", ") (member_text <$> items) ++ [125]).
Proof.
  intros Hok. cbn [encode].
  match goal with |- match ?f _ with _ => _ end = _ =>
    assert (H : f items = Some (member_text <$> items)) end.
  { induction Hok as [|[k v] items [_ Hv] _ IH]; [done|].
    destruct (value_encoded v Hv) as (t & Ht & _).
    rewrite Ht, IH. rewrite fmap_cons. unfold member_text at 2, enc. simpl.
    by rewrite Ht. }
  by rewrite H.
Qed.

Lemma members_S n s acc :
  members (S n) s acc =
  match s with
  | c :: r =>
    if c =? 34 then
      match scanstring r [] with
      | None => None
      | Some (k, r1) =>
        match skip_ws r1 with
        | c1 :: r2 =>
          if c1 =? 58 then
            match value n (skip_ws r2) with
            | None => None
            | Some (v, r3) =>
              match skip_ws r3 with
              | c3 :: r4 =>
                if c3 =? 125 then Some (PDict (rev ((k, v) :: acc)), r4)
                else if c3 =? 44 then members n (skip_ws r4) ((k, v) :: acc)
                else None
              | [] => None
              end
            end
          else None
        | [] => None
        end
      end
    else None
  | [] => None
  end.
Proof. reflexivity. Qed.

Lemma member_text_app kv t :
  member_ok kv ->
  member_text kv ++ t
  = 34 :: flat_map escape_char kv.1 ++ 34 :: 58 :: 32 :: enc kv.2 ++ t.
Proof.
  intros _. unfold member_text. rewrite <- app_assoc, encode_string_app.
  change (py ": ") with [58; 32]. by rewrite <- app_assoc.
Qed.

Lemma skip_ws_member kv t : member_ok kv -> skip_ws (member_text kv ++ t) = member_text kv ++ t.
Proof. intros H. by rewrite member_text_app. Qed.

Lemma members_encoded items : forall n acc rest,
  Forall member_ok items -> items <> [] -> (sum_need items <= n)%nat ->
  members n (join (py ", ") (member_text <$> items) ++ 125 :: rest) acc
  = Some (PDict (rev acc ++ items), rest).
Proof.
  induction items as [|kv items IH]; intros n acc rest Hok Hne Hn; [done|].
  apply Forall_cons in Hok as [Hkv Hok].
  cbn [sum_need] in Hn.
  destruct n as [|n]; [lia|].
  rewrite fmap_cons.
  destruct (join_cons (py ", ") (member_text kv) (member_text <$> items) (125 :: rest))
    as (t & -> & Ht).
  rewrite members_S, member_text_app by done.
  change (34 =? 34) with true. cbv iota.
  rewrite (scan_encoded kv.1 _ [] (proj1 Hkv)). cbn [rev app].
  rewrite skip_ws_head by done. change (58 =? 58) with true. cbv iota.
  rewrite skip_ws_space.
  destruct (value_encoded kv.2 (proj2 Hkv)) as (tv & Htv & Hval & Hskip & _).
  unfold enc. rewrite Htv. cbn [default].
  rewrite Hskip, Hval by lia.
  destruct items as [|kv' items]; subst t.
  - rewrite fmap_nil. cbv iota.
    rewrite skip_ws_head by done. change (125 =? 125) with true. cbv iota.
    by destruct kv.
  - change (py ", ") with [44; 32]. rewrite fmap_cons. cbv iota. cbn [app].
    rewrite skip_ws_head by done.
    change (44 =? 125) with false. change (44 =? 44) with true. cbv iota.
    rewrite skip_ws_space.
    apply Forall_cons in Hok as Hok'. destruct Hok' as [Hkv' _].
    destruct (join_cons [44; 32] (member_text kv') (member_text <$> items) (125 :: rest))
      as (t & Heq & _).
    rewrite Heq, skip_ws_member, <- Heq, <- fmap_cons by done.
    change [44; 32] with (py ", ").
    rewrite IH; [|done|done|lia].
    destruct kv. simpl. by rewrite <- app_assoc.
Qed.

Lemma join_app_length sep x parts :
  (length x + length (join sep parts) <= length (join sep (x :: parts)))%nat.
Proof. destruct parts; simpl; rewrite ?length_app; lia. Qed.

Lemma sum_need_length items :
  Forall member_ok items ->
  (sum_need items <= length (join (py ", ") (member_text <$> items)))%nat.
Proof.
  induction 1 as [|[k v] items [_ Hv] _ IH]; [done|].
  rewrite fmap_cons.
  pose proof (join_app_length (py ", ") (member_text (k, v)) (member_text <$> items)) as Hj.
  destruct (value_encoded v Hv) as (t & Ht & _ & _ & Hlen).
  assert (Hm : (S (need v) <= length (member_text (k, v)))%nat).
  { unfold member_text, enc, encode_string. simpl. rewrite Ht. simpl.
    rewrite !length_app. simpl. lia. }
  simpl sum_need. lia.
Qed.

Lemma value_S_object n r :
  value (S n) (123 :: r) =
  match skip_ws r with
  | c' :: r' => if c' =? 125 then Some (PDict [], r') else members n (c' :: r') []
  | [] => None
  end.
Proof. reflexivity. Qed.

(** What [json.dumps] writes for an object of text fields, [json.loads]
    reads back. *)
Lemma loads_dumps_object items :
  Forall member_ok items -> items <> [] ->
  exists t, dumps (PDict items) = Ok t /\ loads t = Ok (PDict items).
Proof.
  intros Hok Hne. unfold dumps. rewrite (encode_object items Hok).
  eexists. split; [reflexivity|].
  unfold loads. cbn [app]. rewrite skip_ws_head by done.
  pose proof (sum_need_length items Hok) as Hlen.
  set (body := join (py ", ") (member_text <$> items)) in *.
  replace (2 * length (123%N :: body ++ [125%N]) + 2)%nat
    with (S (2 * length body + 5)) by (simpl; rewrite length_app; simpl; lia).
  rewrite value_S_object.
  destruct items as [|kv items]; [done|].
  apply Forall_cons in Hok as Hok'. destruct Hok' as [Hkv _].
  destruct (join_cons (py ", ") (member_text kv) (member_text <$> items) [125])
    as (t & Heq & _).
  unfold body at 1 2. rewrite fmap_cons, Heq, skip_ws_member by done.
  rewrite member_text_app by done. change (34 =? 125) with false. cbv iota.
  rewrite <- member_text_app, <- Heq, <- fmap_cons by done.
  rewrite (members_encoded (kv :: items) _ [] []); [done|done|done|].
  fold body. lia.
Qed.
End JsonFacts.

Module RoundTripFacts.
Import AIProcessor Guide Encoding JsonFacts.

(** With distinct keys, the pair the decoder keeps for a key is the pair
    the dictionary holds. *)
Lemma assoc_last_lookup k items found :
  NoDup items.*1 ->
  Py.assoc_last k items found
  = match (list_to_map items : pydict) !! k with
    | Some v => Some v
    | None => found
    end.
Proof.
  revert found. induction items as [|[k' v] items IH]; intros found Hnd; [done|].
  apply NoDup_cons in Hnd as [Hk' Hnd]. simpl.
  rewrite IH by done. case_bool_decide as Hk.
  - subst k'. rewrite lookup_insert_eq.
    by rewrite (not_elem_of_list_to_map_1 _ k Hk').
  - rewrite lookup_insert_ne by done. done.
Qed.

Lemma guide_of_json_fields items :
  guide_of_json (PDict items) = Ok (list_to_map (field_of items <$> fields)).
Proof. reflexivity. Qed.

Lemma keys_text : Forall text keys.
Proof. repeat constructor; compute_done. Qed.

Lemma guide_of_own_items items :
  items.*1 ≡ₚ keys ->
  (list_to_map (field_of items <$> fields) : pydict) = list_to_map items.
Proof.
  intros Hperm.
  assert (Hnd : NoDup items.*1) by (rewrite Hperm; compute_done).
  apply map_eq. intros i.
  destruct (decide (i ∈ keys)) as [Hi|Hi].
  - assert (His : i ∈ items.*1) by by rewrite Hperm.
    apply list_elem_of_fmap in His as ([k v] & -> & Hkv). cbn [fst] in *.
    rewrite (elem_of_list_to_map_1 items k v Hnd Hkv).
    pose proof (assoc_last_lookup k items None Hnd) as Hl.
    rewrite (elem_of_list_to_map_1 items k v Hnd Hkv) in Hl.
    apply elem_of_list_to_map_1.
    + compute_done.
    + unfold keys in Hi. unfold fields. rewrite !fmap_cons, fmap_nil.
      unfold field_of. cbn [fst snd].
      repeat (apply elem_of_cons in Hi as [->|Hi]; [rewrite Hl, !elem_of_cons; tauto|]).
      by apply elem_of_nil in Hi.
  - rewrite (not_elem_of_list_to_map_1 items i) by (by rewrite Hperm).
    apply not_elem_of_list_to_map_1.
    rewrite <- list_fmap_compose. exact Hi.
Qed.

End RoundTripFacts.

Import AIProcessor Guide.

(** C7.  For every well-formed guide, the text that serializes it in the
    structured format is read back by [_parse_ai_response] as that guide. *)
Theorem normalize_serialize_roundtrip U items :
  well_formed items ->
  exists t, serialize items = Ok t /\
            _parse_ai_response U t = Ok (list_to_map items).
Proof.
  intros [Hperm Hall].
  assert (Hok : Forall Encoding.member_ok items).
  { apply Forall_forall. intros [k v] Hkv. split; simpl.
    - pose proof RoundTripFacts.keys_text as Hk.
      rewrite Forall_forall in Hk. apply Hk. rewrite <- Hperm.
      apply list_elem_of_fmap. by exists (k, v).
    - rewrite Forall_forall in Hall. by apply (Hall (k, v)). }
  assert (Hne : items <> []).
  { intros ->. apply Permutation_length in Hperm. discriminate. }
  destruct (JsonFacts.loads_dumps_object items Hok Hne) as (t & Hd & Hl).
  exists t. split; [exact Hd|].
  unfold _parse_ai_response. rewrite Hl. cbn [bind].
  rewrite RoundTripFacts.guide_of_json_fields. cbn [try_except].
  by rewrite RoundTripFacts.guide_of_own_items.
Qed.

Module StoreFacts.
Import Mongo DatabaseManager.

Lemma find_index_alter q f docs i :
  (forall d, matches q d = true -> matches q (f d) = true) ->
  find_index q docs = Some i ->
  find_index q (alter f i docs) = Some i.
Proof.
  intros Hf. revert i. induction docs as [|d docs IH]; intros i; [done|].
  simpl. destruct (matches q d) eqn:Hd.
  - intros [= <-]. simpl. by rewrite Hf.
  - destruct (find_index q docs) as [j|] eqn:Hj; [|done].
    intros [= <-]. simpl. rewrite Hd. unfold alter in IH. by rewrite (IH j).
Qed.

Lemma find_index_app q docs d :
  find_index q docs = None -> matches q d = true ->
  find_index q (docs ++ [d]) = Some (length docs).
Proof.
  intros Hn Hd. induction docs as [|d' docs IH]; simpl in *.
  - by rewrite Hd.
  - destruct (matches q d'); [done|].
    destruct (find_index q docs); [done|]. by rewrite IH.
Qed.

Lemma find_index_matches q docs i :
  find_index q docs = Some i -> exists d, docs !! i = Some d /\ matches q d = true.
Proof.
  revert i. induction docs as [|d docs IH]; intros i; [done|]. simpl.
  destruct (matches q d) eqn:Hd.
  - intros [= <-]. by exists d.
  - destruct (find_index q docs) as [j|]; [|done]. intros [= <-]. by apply IH.
Qed.

(** A second [$set] of fields with the same keys hides the first. *)
Lemma union_absorb (f1 f2 d : pydict) :
  dom f1 = dom f2 -> f2 ∪ (f1 ∪ d) = f2 ∪ d.
Proof.
  intros Hdom. apply map_eq. intros k.
  rewrite !lookup_union.
  destruct (f2 !! k) as [v|] eqn:H2; [by destruct (f1 !! k), (d !! k)|].
  assert (H1 : f1 !! k = None).
  { apply not_elem_of_dom. rewrite Hdom. by apply not_elem_of_dom. }
  rewrite H1. by destruct (d !! k).
Qed.

Lemma alter_last {A} (f : A -> A) (l : list A) (x : A) :
  alter f (length l) (l ++ [x]) = l ++ [f x].
Proof.
  replace (length l) with (length l + 0)%nat by lia.
  by rewrite (alter_app_r f l [x] 0).
Qed.


(** Writing fields [f1] and then fields [f2] with the same keys through the
    same filter leaves what writing [f2] alone leaves, when what [f1]
    writes is again selected by the filter: the second write lands on the
    document the first one wrote. *)
Lemma upsert_then_upsert (q : list (pystr * pystr)) (f1 f2 : pydict) s res1 s1 :
  dom f1 = dom f2 ->
  (forall d, matches q d = true -> matches q (f1 ∪ d) = true) ->
  (forall x, matches q (f1 ∪ (query_doc q ∪ x)) = true) ->
  update_one_upsert q f1 s = Ok (res1, s1) ->
  exists i x res,
    company_interviews s1 !! i = Some (f1 ∪ x) /\
    update_one_upsert q f2 s1
      = Ok ({| matched_count := 1; upserted_id := None |},
            set_docs s1 (alter (union f2) i (company_interviews s1))) /\
    update_one_upsert q f2 s
      = Ok (res, set_docs s1 (alter (union f2) i (company_interviews s1))).
Proof.
  intros Hdom Hkeep Hnew. unfold update_one_upsert.
  destruct (reachable s) eqn:Hr; [|done].
  destruct (find_index q (company_interviews s)) as [i|] eqn:Hi.
  - intros [= <- <-]. simpl.
    destruct (find_index_matches _ _ _ Hi) as (d & Hd & Hm).
    exists i, d. eexists. split; [|split].
    + rewrite list_lookup_alter_eq, Hd. done.
    + rewrite (find_index_alter q (fun d => f1 ∪ d) _ i Hkeep Hi). done.
    + f_equal. f_equal. unfold set_docs. simpl. f_equal.
      rewrite list_alter_alter_eq. apply list_alter_ext; [|done].
      intros d' _. simpl. by rewrite union_absorb.
  - intros [= <- <-]. simpl.
    set (doc := f1 ∪ query_doc q ∪ {[k_id := PObjectId (next_id s)]}).
    assert (Hdoc : doc = f1 ∪ (query_doc q ∪ {[k_id := PObjectId (next_id s)]}))
      by (unfold doc; by rewrite (assoc_L (∪))).
    exists (length (company_interviews s)), (query_doc q ∪ {[k_id := PObjectId (next_id s)]}).
    eexists. split; [|split].
    + rewrite lookup_app_r, Nat.sub_diag by lia. simpl. by rewrite Hdoc.
    + rewrite (find_index_app q _ doc Hi) by (rewrite Hdoc; apply Hnew). done.
    + f_equal. f_equal. unfold set_docs. simpl. f_equal.
      rewrite alter_last. f_equal. f_equal.
      rewrite Hdoc, union_absorb by done. by rewrite (assoc_L (∪)).
Qed.

Lemma upsert_unreachable q f s e :
  update_one_upsert q f s = Raise e -> reachable s = false /\ e = StoreError.
Proof.
  unfold update_one_upsert. destruct (reachable s); [|by intros [= <-]].
  by destruct (find_index _ _).
Qed.
End StoreFacts.

Module UpsertFacts.
Import Mongo DatabaseManager Upsert StoreFacts.

Lemma stamped_other t1 t2 r k :
  k <> k_created_at -> k <> k_updated_at -> stamped t1 t2 r !! k = r !! k.
Proof. intros H1 H2. unfold stamped. by rewrite !lookup_insert_ne. Qed.

Lemma stamped_stamped t1 t2 t3 t4 r :
  stamped t3 t4 (stamped t1 t2 r) = stamped t3 t4 r.
Proof.
  unfold stamped. apply map_eq. intros k.
  rewrite !lookup_insert. by repeat case_decide.
Qed.

Lemma stamped_dom t1 t2 t3 t4 r : dom (stamped t1 t2 r) = dom (stamped t3 t4 r).
Proof. unfold stamped. by rewrite !dom_insert_L. Qed.

Lemma stamped_query U t1 t2 r : upsert_query U (stamped t1 t2 r) = upsert_query U r.
Proof.
  unfold upsert_query, Py.getitem, Py.get.
  by rewrite !stamped_other by compute_done.
Qed.

Lemma stamped_normalised U t1 t2 r :
  key_normalised U r -> key_normalised U (stamped t1 t2 r).
Proof.
  unfold key_normalised, Py.get.
  by rewrite !stamped_other by compute_done.
Qed.

(** For a record with a normalised key, what the upsert writes is selected
    by the upsert's own filter. *)
Lemma normalised_selected U f q :
  key_normalised U f -> upsert_query U f = Ok q ->
  (forall d, matches q d = true -> matches q (f ∪ d) = true) /\
  (forall x, matches q (f ∪ (query_doc q ∪ x)) = true).
Proof.
  intros [Hname Hrole]. unfold upsert_query, Py.getitem, Py.get in *.
  destruct (f !! k_company_name) as [v|] eqn:Hv; [|done].
  specialize (Hname v eq_refl). simpl.
  destruct v as [| | | |n| | | |]; try done. simpl in Hname. simpl.
  destruct (f !! k_role) as [w|] eqn:Hw; simpl in *.
  - destruct w as [| | | |ρ| | | |]; try done. simpl in *. intros [= <-].
    rewrite Hname, Hrole.
    split; intros; unfold matches, field_matches; simpl;
      rewrite !(lookup_union_Some_l _ _ _ _ Hv), !(lookup_union_Some_l _ _ _ _ Hw);
      by rewrite !bool_decide_eq_true_2.
  - intros [= <-]. rewrite Hname, Hrole.
    split.
    + intros d. unfold matches, field_matches. simpl.
      rewrite !(lookup_union_Some_l _ _ _ _ Hv), (lookup_union_r _ _ _ Hw).
      rewrite bool_decide_eq_true_2 by done.
      rewrite !andb_true_r. by intros [_ ?]%andb_true_iff.
    + intros x. unfold matches, field_matches. simpl.
      rewrite !(lookup_union_Some_l _ _ _ _ Hv), (lookup_union_r _ _ _ Hw).
      rewrite bool_decide_eq_true_2 by done.
      rewrite (lookup_union_Some_l _ _ _ (PStr (py "general"))).
      * by rewrite bool_decide_eq_true_2.
      * unfold query_doc. simpl. rewrite lookup_insert_ne by compute_done.
        by rewrite lookup_insert_eq.
Qed.

Lemma same_but_timestamps_refl d : same_but_timestamps d d.
Proof. by intros k _ _. Qed.

Lemma same_but_timestamps_stamp t1 t2 t3 t4 r x :
  same_but_timestamps (stamped t1 t2 r ∪ x) (stamped t3 t4 r ∪ (stamped t1 t2 r ∪ x)).
Proof.
  intros k H1 H2. rewrite !lookup_union, !stamped_other by done.
  by destruct (r !! k), (x !! k).
Qed.
End UpsertFacts.

Import Mongo DatabaseManager Upsert StoreFacts UpsertFacts.

Lemma save_company_data_eq U t1 t2 r self :
  save_company_data U t1 t2 r self =
  if negb (connected self) then (Raise NotConnected, r, self)
  else match (q <- upsert_query U r ;;
              update_one_upsert q (stamped t1 t2 r) (db self)) with
       | Ok (res, s) => (Ok res, stamped t1 t2 r, set_db self s)
       | Raise e => (Raise e, stamped t1 t2 r, self)
       end.
Proof.
  unfold save_company_data. destruct (negb (connected self)); [done|].
  fold (stamped t1 t2 r). by rewrite stamped_query.
Qed.

(** C5, as amended.  For a record whose company name and role are already
    lower case, two upserts in sequence leave the manager and the record as a
    single upsert made at the time of the second one leaves them; the second
    adds no document, and every document is, after two calls, what it was
    after one in every field but [created_at] and [updated_at]. *)
Theorem upsert_twice_is_upsert_later U t1 t2 t3 t4 r self :
  key_normalised U r ->
  let once := save_company_data U t1 t2 r self in
  let twice := save_company_data U t3 t4 once.1.2 once.2 in
  let late := save_company_data U t3 t4 r self in
  twice.2 = late.2 /\ twice.1.2 = late.1.2 /\
  length (documents twice.2) = length (documents once.2) /\
  Forall2 same_but_timestamps (documents once.2) (documents twice.2).
Proof.
  intros Hnorm. cbv zeta. rewrite !(save_company_data_eq U _ _ r).
  assert (Hrefl : forall l, Forall2 same_but_timestamps l l).
  { intros l. apply Forall_Forall2_diag, Forall_true, same_but_timestamps_refl. }
  destruct (connected self) eqn:Hc; simpl.
  2: { rewrite save_company_data_eq, Hc. simpl. auto. }
  destruct (upsert_query U r) as [q|e] eqn:Hq; simpl.
  2: { rewrite save_company_data_eq, Hc, stamped_query, Hq. simpl.
       rewrite stamped_stamped. auto. }
  destruct (normalised_selected U (stamped t1 t2 r) q) as [Hkeep Hnew];
    [by apply stamped_normalised|by rewrite stamped_query|].
  destruct (update_one_upsert q (stamped t1 t2 r) (db self)) as [[res1 s1]|e] eqn:H1;
    simpl.
  - destruct (upsert_then_upsert q _ (stamped t3 t4 r) _ _ _
                (stamped_dom t1 t2 t3 t4 r) Hkeep Hnew H1)
      as (i & x & res & Hi & H2 & H3).
    rewrite save_company_data_eq. simpl. rewrite Hc, stamped_query, Hq. simpl.
    rewrite stamped_stamped, H2, H3. simpl.
    split; [done|]. split; [done|]. unfold documents. simpl. split.
    + apply length_alter.
    + apply Forall2_alter_r; [done|].
      intros d1 d2 Hd1 Hd2 _. rewrite Hi in Hd1, Hd2.
      injection Hd1 as <-. injection Hd2 as <-.
      apply same_but_timestamps_stamp.
  - apply upsert_unreachable in H1 as [Hr ->].
    rewrite save_company_data_eq, Hc, stamped_query, Hq. simpl.
    unfold update_one_upsert. rewrite Hr. simpl.
    rewrite stamped_stamped. auto.
Qed.

Lemma upsert_twice_is_upsert_later_witness :
  key_normalised ascii_runtime Examples.lowercase_record /\
  let once := save_company_data ascii_runtime 1 2 Examples.lowercase_record
                Examples.connected_manager in
  let twice := save_company_data ascii_runtime 3 4 once.1.2 once.2 in
  let late := save_company_data ascii_runtime 3 4 Examples.lowercase_record
                Examples.connected_manager in
  twice.2 = late.2 /\ twice.1.2 = late.1.2 /\
  length (documents twice.2) = length (documents once.2) /\
  Forall2 same_but_timestamps (documents once.2) (documents twice.2).
Proof.
  assert (H : key_normalised ascii_runtime Examples.lowercase_record).
  { split.
    - intros v Hv. vm_compute in Hv. injection Hv as <-. vm_compute. reflexivity.
    - vm_compute. reflexivity. }
  split; [exact H|].
  apply (upsert_twice_is_upsert_later ascii_runtime 1 2 3 4
           Examples.lowercase_record Examples.connected_manager H).
Defined.

Import Mongo DatabaseManager Upsert Examples.

(** ** The gateway while disconnected *)

(** C3, as amended.  While the manager is not connected, the lookup, the
    upsert and the report append raise the connectivity error and change
    neither the store nor the dictionary they were given, whereas the listing
    of companies returns the empty list. *)
Theorem disconnected_operations U t1 t2 t3 name role company_data report_data self :
  connected self = false ->
  get_company_data U name role self = Raise NotConnected /\
  save_company_data U t1 t2 company_data self = (Raise NotConnected, company_data, self) /\
  save_generated_report t3 report_data self = (Raise NotConnected, report_data, self) /\
  get_all_companies self = Ok [].
Proof.
  intros Hc.
  unfold get_company_data, save_company_data, save_generated_report, get_all_companies.
  by rewrite Hc.
Qed.

Lemma disconnected_operations_witness :
  connected fresh_manager = false /\
  get_company_data ascii_runtime (py "Google") None fresh_manager = Raise NotConnected /\
  save_company_data ascii_runtime 1 2 google_record fresh_manager
    = (Raise NotConnected, google_record, fresh_manager) /\
  save_generated_report 3 google_record fresh_manager
    = (Raise NotConnected, google_record, fresh_manager) /\
  get_all_companies fresh_manager = Ok [].
Proof.
  split; [reflexivity|].
  apply (disconnected_operations ascii_runtime 1 2 3 (py "Google") None
           google_record google_record fresh_manager).
  reflexivity.
Defined.

(** C3 as stated fails: on a manager that never connected, the listing of
    companies returns an empty list and raises nothing. *)
Lemma get_all_companies_disconnected_returns_empty :
  connected fresh_manager = false /\ get_all_companies fresh_manager = Ok [].
Proof. split; reflexivity. Qed.

(** ** Case of the lookup key *)

(** C2.  After the upsert of a record for Google, Software Engineer into an
    empty store, the document is there under the name as given, and the
    lookup, which asks for the lower-cased name, finds nothing, whatever the
    casing the caller uses. *)
Theorem upsert_then_get_mixed_case :
  let saved := save_company_data ascii_runtime 1 2 google_record connected_manager in
  (exists res, saved.1.1 = Ok res) /\
  (exists d, documents saved.2 = [d] /\ d !! k_company_name = Some (PStr (py "Google"))) /\
  get_company_data ascii_runtime (py "Google") (Some (py "Software Engineer")) saved.2
    = Ok None /\
  get_company_data ascii_runtime (py "google") (Some (py "software engineer")) saved.2
    = Ok None /\
  get_company_data ascii_runtime (py "GOOGLE") None saved.2 = Ok None.
Proof.
  cbv zeta. split; [|split; [|split; [|split]]].
  - eexists. vm_compute. reflexivity.
  - eexists. split; vm_compute; reflexivity.
  - vm_compute. reflexivity.
  - vm_compute. reflexivity.
  - vm_compute. reflexivity.
Qed.

(** ** The record handed to the upsert *)

(** C8, as amended.  [save_company_data] writes [created_at] and
    [updated_at] into the caller's record when the manager is connected and
    leaves the record as it is otherwise; every other key keeps its value. *)
Theorem save_company_data_touches_timestamps_only U t1 t2 r self k :
  k <> k_created_at -> k <> k_updated_at ->
  (save_company_data U t1 t2 r self).1.2
    = (if connected self then stamped t1 t2 r else r) /\
  (save_company_data U t1 t2 r self).1.2 !! k = r !! k.
Proof.
  intros H1 H2.
  assert (H : (save_company_data U t1 t2 r self).1.2
              = (if connected self then stamped t1 t2 r else r)).
  { rewrite save_company_data_eq. destruct (connected self); [|done]. simpl.
    by destruct (_ <- upsert_query U r ;; _) as [[]|]. }
  split; [done|]. rewrite H.
  destruct (connected self); [by apply UpsertFacts.stamped_other|done].
Qed.

Lemma save_company_data_touches_timestamps_only_witness :
  k_role <> k_created_at /\ k_role <> k_updated_at /\
  (save_company_data ascii_runtime 1 2 google_record connected_manager).1.2
    !! k_role = google_record !! k_role.
Proof.
  assert (H1 : k_role <> k_created_at) by compute_done.
  assert (H2 : k_role <> k_updated_at) by compute_done.
  split; [exact H1|]. split; [exact H2|].
  apply (save_company_data_touches_timestamps_only
           ascii_runtime 1 2 google_record connected_manager k_role H1 H2).
Defined.

(** C8 as stated fails: after the upsert the caller's record has a
    [created_at] it did not have before. *)
Lemma save_company_data_mutates_record :
  google_record !! k_created_at = None /\
  (save_company_data ascii_runtime 1 2 google_record connected_manager).1.2
    !! k_created_at = Some (PDatetime 1).
Proof. split; vm_compute; reflexivity. Qed.

(** ** Upsert, twice *)

(** C5 as stated fails, in two ways.  For a record whose key is lower case,
    the document stored after two upserts differs from the one stored after
    one: it carries the second call's clock readings.  For a record whose
    name has capitals, the second upsert adds a second document. *)
Lemma upsert_twice_differs :
  let once := save_company_data ascii_runtime 1 2 lowercase_record connected_manager in
  let twice := save_company_data ascii_runtime 3 4 once.1.2 once.2 in
  let once' := save_company_data ascii_runtime 1 2 google_record connected_manager in
  let twice' := save_company_data ascii_runtime 3 4 once'.1.2 once'.2 in
  twice.2 <> once.2 /\
  length (documents once'.2) = 1%nat /\ length (documents twice'.2) = 2%nat.
Proof.
  cbv zeta. split; [|split].
  - intros H. apply (f_equal (fun m => documents m ≫= fun d => option_list (d !! k_created_at))) in H.
    vm_compute in H. discriminate.
  - vm_compute. reflexivity.
  - vm_compute. reflexivity.
Qed.

Import AIProcessor Guide Examples.

(** ** The heuristic parse and the bullet *)

(** C6.  Under a section headed by the tips keyword, a line that starts
    with the bullet U+2022 is not extracted, although the bullet is among the
    characters the extraction strips; the same line with a hyphen is. *)
Theorem bullet_line_not_extracted :
  (exists g, _parse_ai_response ascii_runtime tips_with_bullet = Ok g /\
             g !! k_tips = Some (PList [])) /\
  (exists g, _parse_ai_response ascii_runtime tips_with_hyphen = Ok g /\
             g !! k_tips = Some (PList [PStr (py "Use STAR method")])).
Proof.
  split; eexists; (split; [vm_compute; reflexivity|reflexivity]).
Qed.

(** ** The three model-backed calls *)

Lemma synthesize_total U reply scraped_data :
  exists g, synthesize_interview_data U reply scraped_data = Ok g.
Proof.
  unfold synthesize_interview_data, dumps_for_prompt.
  destruct (Py.dict_serializable scraped_data); simpl; [|by eexists].
  destruct reply as [content|e]; simpl; [|by eexists].
  destruct (parse_ai_response_returns U content) as (g & ->). by eexists.
Qed.

Lemma create_study_plan_total reply interview_data days :
  Py.dict_serializable interview_data = true ->
  exists p, create_study_plan reply interview_data days = Ok p.
Proof.
  intros Hser. unfold create_study_plan, dumps_for_prompt. rewrite Hser.
  destruct reply; by eexists.
Qed.

Lemma generate_custom_questions_total reply company_name role experience_level :
  exists l, generate_custom_questions reply company_name role experience_level = Ok l.
Proof.
  unfold generate_custom_questions.
  destruct reply as [text|e]; simpl; [|by eexists].
  destruct (Json.loads text); simpl; by eexists.
Qed.

Lemma question_lines_strings text : forallb Py.is_str (question_lines text) = true.
Proof.
  unfold question_lines. induction (filter _ _) as [|q qs IH]; [done|]. exact IH.
Qed.

(** The generator returns strings unless the reply is a JSON list that holds
    something else. *)
Lemma generate_custom_questions_of_strings reply company_name role experience_level :
  Questions.string_items reply ->
  exists l, generate_custom_questions reply company_name role experience_level = Ok l /\
            forallb Py.is_str l = true.
Proof.
  unfold generate_custom_questions, Questions.string_items.
  destruct reply as [text|e]; simpl; [|intros _; by eexists].
  intros Hs. destruct (Json.loads text) as [v|e]; simpl.
  - destruct v; try (by exists []). exists items. split; [done|]. by apply Hs.
  - eexists. split; [reflexivity|]. apply question_lines_strings.
Qed.




(** ** The study plan *)

(** Given a record that can be written into the prompt, the plan returned
    has the number of days asked for as its duration, on the path where the
    model replies, where the plan's text is the reply, and on the fallback
    path, where the plan's text is not empty. *)
Lemma create_study_plan_returns reply interview_data days :
  Py.dict_serializable interview_data = true ->
  exists plan,
    create_study_plan reply interview_data days = Ok plan /\
    plan !! k_duration = Some (PInt days) /\
    match reply with
    | Ok text => plan !! k_study_plan = Some (PStr text)
    | Raise _ => exists s, plan !! k_study_plan = Some (PStr s) /\ s <> []
    end.
Proof.
  intros Hser. unfold create_study_plan, dumps_for_prompt. rewrite Hser.
  destruct reply as [text|e]; simpl; eexists; (split; [reflexivity|]).
  - split; reflexivity.
  - split; [reflexivity|]. eexists. split; [reflexivity|]. discriminate.
Qed.

(** C10.  The record the lookup returns for a company saved before carries
    the two time stamps of the save, and a time stamp cannot be written into
    a prompt.  On that record [create_study_plan] raises [TypeError],
    whatever the model does and whatever the number of days: it returns no
    plan, from the reply or from the fallback.  [synthesize_interview_data],
    whose prompt is built inside its [try], returns its fallback on the same
    record. *)
Theorem create_study_plan_raises_on_cached_record reply days :
  let saved := save_company_data ascii_runtime 1 2 lowercase_record connected_manager in
  let cached := stamped 1 2 lowercase_record in
  get_company_data ascii_runtime (py "google") (Some (py "software engineer")) saved.2
    = Ok (Some cached) /\
  create_study_plan reply cached days = Raise TypeError /\
  synthesize_interview_data ascii_runtime reply cached
    = Ok (_fallback_synthesis ascii_runtime cached).
Proof.
  cbv zeta.
  assert (Hser : Py.dict_serializable (stamped 1 2 lowercase_record) = false).
  { apply bool_decide_eq_false_2. intros H.
    by specialize (H k_created_at (PDatetime 1) ltac:(vm_compute; reflexivity)). }
  split; [vm_compute; reflexivity|]. split.
  - unfold create_study_plan, dumps_for_prompt. by rewrite Hser.
  - unfold synthesize_interview_data, dumps_for_prompt. by rewrite Hser.
Qed.

(** ** Round trip through the structured format *)

Lemma normalize_serialize_roundtrip_witness :
  well_formed sample_guide /\
  exists t, serialize sample_guide = Ok t /\
            _parse_ai_response ascii_runtime t = Ok (list_to_map sample_guide).
Proof.
  assert (H : well_formed sample_guide).
  { split; [reflexivity|].
    repeat constructor; compute_done. }
  split; [exact H|].
  apply (normalize_serialize_roundtrip ascii_runtime sample_guide H).
Defined.

Import Api.

(** ** A failed read and a cache miss *)

Module PipelineFacts.

Import Aggregation.

Lemma dict_serializable_intro d : all_serializable d -> Py.dict_serializable d = true.
Proof. intros H. by apply bool_decide_eq_true_2. Qed.

Lemma setitem_serializable pairs k v :
  forallb (fun kv => Py.serializable kv.2) pairs = true ->
  Py.serializable v = true ->
  forallb (fun kv => Py.serializable kv.2) (Scraper.setitem pairs k v) = true.
Proof.
  intros Hp Hv. induction pairs as [|[k' v'] pairs IH]; simpl in *.
  - by rewrite Hv.
  - apply andb_true_iff in Hp as [H1 H2].
    case_bool_decide; simpl; [by rewrite Hv|]. by rewrite H1, IH.
Qed.

Lemma mark_source_ok d name :
  aggregating d -> exists d', mark_source d name = Ok d' /\ aggregating d'.
Proof.
  intros (Hs & pairs & Hd & Hp). unfold mark_source, Py.getitem. rewrite Hd. simpl.
  assert (Hset := setitem_serializable pairs name (PBool true) Hp eq_refl).
  eexists. split; [reflexivity|]. split.
  - apply map_Forall_insert_2; [exact Hset|exact Hs].
  - eexists. split; [apply lookup_insert_eq|exact Hset].
Qed.

Lemma aggregating_insert d k v :
  k <> k_sources -> Py.serializable v = true -> aggregating d ->
  aggregating (<[k := v]> d).
Proof.
  intros Hk Hv (Hs & pairs & Hd & Hp). split.
  - by apply map_Forall_insert_2.
  - exists pairs. by rewrite lookup_insert_ne.
Qed.

Lemma base_data_serializable k :
  let base := default Scraper.default_data (Scraper.company_specific_data !! k) in
  Py.serializable (Scraper.process_steps base) = true /\
  Py.serializable (Scraper.technical_topics base) = true /\
  Py.serializable (Scraper.difficulty_level base) = true.
Proof.
  unfold Scraper.company_specific_data.
  rewrite !lookup_insert. by repeat case_decide.
Qed.

Lemma glassdoor_data_facts U name role :
  let g := Scraper.scrape_glassdoor_interviews U name role in
  all_serializable g /\ g !! k_sources = None /\ g <> ∅.
Proof.
  unfold Scraper.scrape_glassdoor_interviews, Scraper._generate_mock_glassdoor_data.
  destruct (base_data_serializable (str_lower U name)) as (H1 & H2 & H3).
  cbv zeta in *. split; [|split].
  - repeat (apply map_Forall_insert_2; [try done|]). apply map_Forall_empty.
  - rewrite !lookup_insert_ne by compute_done. apply lookup_empty.
  - apply insert_non_empty.
Qed.

(** The aggregation always returns a record, and the record can be written
    into a prompt. *)
Lemma scrape_company_data_ok U name role :
  exists data, scrape_company_data U name role = Ok data /\
               Py.dict_serializable data = true.
Proof.
  unfold scrape_company_data.
  destruct (glassdoor_data_facts U name role) as (Hg & Hgs & Hne).
  set (g := Scraper.scrape_glassdoor_interviews U name role) in *.
  rewrite (bool_decide_eq_false_2 _ Hne).
  match goal with |- context [mark_source (g ∪ ?s0) _] => set (d0 := s0) end.
  assert (H0 : aggregating (g ∪ d0)).
  { split.
    - apply map_Forall_union_2; [exact Hg|]. unfold d0.
      repeat (apply map_Forall_insert_2; [by destruct role|]). apply map_Forall_empty.
    - exists []. split; [|done]. rewrite lookup_union_r by exact Hgs.
      unfold d0. rewrite !lookup_insert_ne by compute_done. apply lookup_insert_eq. }
  destruct (mark_source_ok _ (py "glassdoor") H0) as (d1 & -> & H1). cbn [bind].
  change (Scraper.nonempty (Scraper.scrape_leetcode_company name)) with true. cbv iota.
  destruct (mark_source_ok _ (py "leetcode")
              (aggregating_insert d1 (py "leetcode_data")
                 (PDict (Scraper.scrape_leetcode_company name))
                 ltac:(compute_done) eq_refl H1)) as (d2 & -> & H2). cbn [bind].
  change (Scraper.nonempty (Scraper.scrape_general_sources name role)) with true. cbv iota.
  destruct (mark_source_ok _ (py "general")
              (aggregating_insert d2 (py "general_sources")
                 (PDict (Scraper.scrape_general_sources name role))
                 ltac:(compute_done) eq_refl H2)) as (d3 & -> & H3). cbn [bind].
  exists d3. split; [reflexivity|]. apply dict_serializable_intro, H3.
Qed.

(** The response model holds the data it accepts, and accepts data with a
    role and questions that are strings. *)
Lemma ResearchResponse_ok response_data response :
  ResearchResponse response_data = Ok response -> response = response_data.
Proof.
  unfold ResearchResponse. destruct (r_role response_data); [|done].
  destruct (forallb _ _); [|done]. by intros [= <-].
Qed.

Lemma ResearchResponse_accepts response_data role :
  r_role response_data = Some role ->
  forallb Py.is_str (r_custom_questions response_data) = true ->
  ResearchResponse response_data = Ok response_data.
Proof. intros Hr Hq. unfold ResearchResponse. by rewrite Hr, Hq. Qed.

(** The route on a miss, once the fresh record is aggregated. *)
Lemma research_company_miss U synthesis_reply questions_reply plan_reply generated_at
    request self data :
  get_company_data U (company_name request) (role request) self = Ok None ->
  scrape_company_data U (company_name request) (role request) = Ok data ->
  research_company U synthesis_reply questions_reply plan_reply generated_at request self
  = try_except
      (ai_synthesis <- AIProcessor.synthesize_interview_data U synthesis_reply data ;;
       custom_questions <- AIProcessor.generate_custom_questions questions_reply
                             (company_name request) (role request)
                             (experience_level request) ;;
       study_plan <- AIProcessor.create_study_plan plan_reply data
                       (days_to_prepare request) ;;
       let response_data :=
         {| r_company_name := company_name request;
            r_role := role request;
            r_interview_data := data;
            r_ai_synthesis := ai_synthesis;
            r_custom_questions := custom_questions;
            r_study_plan := study_plan;
            r_generated_at := generated_at |} in
       response <- ResearchResponse response_data ;;
       Ok (response, [SaveCompanyData data; SaveGeneratedReport response_data]))
      (fun e => Raise (HTTPException 500 e)).
Proof.
  intros Hget Hdata. unfold research_company, obtain_interview_data.
  rewrite Hget. cbn [bind]. rewrite Hdata. reflexivity.
Qed.

End PipelineFacts.

(** C9.  On a connected manager the lookup never raises.  When the store
    does not answer, the lookup returns [None], and the route then does what
    it does on any miss: it aggregates afresh and schedules the save of the
    fresh record; whenever it answers, the response carries the fresh record
    and the save of that record is scheduled before the save of the report;
    it answers whenever the request names a role and the questions are
    strings; and what it returns or raises is what it returns or raises on
    any manager whose lookup finds nothing. *)
Theorem read_failure_is_cache_miss U synthesis_reply questions_reply plan_reply
    generated_at request self :
  connected self = true ->
  (exists found,
     get_company_data U (company_name request) (role request) self = Ok found) /\
  (reachable (db self) = false ->
   get_company_data U (company_name request) (role request) self = Ok None /\
   (exists data,
      scrape_company_data U (company_name request) (role request) = Ok data /\
      obtain_interview_data U request None = Ok (data, [SaveCompanyData data]) /\
      (forall response tasks,
         research_company U synthesis_reply questions_reply plan_reply generated_at
           request self = Ok (response, tasks) ->
         r_interview_data response = data /\
         tasks = [SaveCompanyData data; SaveGeneratedReport response]) /\
      (role request <> None -> Questions.string_items questions_reply ->
       exists response,
         research_company U synthesis_reply questions_reply plan_reply generated_at
           request self
         = Ok (response, [SaveCompanyData data; SaveGeneratedReport response]))) /\
   (forall miss,
      connected miss = true ->
      get_company_data U (company_name request) (role request) miss = Ok None ->
      research_company U synthesis_reply questions_reply plan_reply generated_at
        request miss
      = research_company U synthesis_reply questions_reply plan_reply generated_at
          request self)).
Proof.
  intros Hc.
  assert (Hget : reachable (db self) = false ->
                 get_company_data U (company_name request) (role request) self = Ok None).
  { intros Hr. unfold get_company_data, find_one. by rewrite Hc, Hr. }
  split.
  - unfold get_company_data, find_one. rewrite Hc. simpl.
    destruct (reachable (db self)); simpl; by eexists.
  - intros Hr. specialize (Hget Hr). split; [exact Hget|]. split.
    + destruct (PipelineFacts.scrape_company_data_ok U (company_name request) (role request))
        as (data & Hdata & Hser).
      exists data. split; [exact Hdata|]. split; [|split].
      * unfold obtain_interview_data. by rewrite Hdata.
      * intros response tasks.
        rewrite (PipelineFacts.research_company_miss _ _ _ _ _ _ _ _ Hget Hdata).
        destruct (synthesize_interview_data U synthesis_reply data) as [g|e]; simpl; [|done].
        destruct (generate_custom_questions _ _ _ _) as [l|e]; simpl; [|done].
        destruct (create_study_plan plan_reply data _) as [p|e]; simpl; [|done].
        destruct (ResearchResponse _) as [r|e] eqn:Hv; simpl; [|done].
        apply PipelineFacts.ResearchResponse_ok in Hv. subst r.
        by intros [= <- <-].
      * intros Hrole Hq.
        assert (Hρ : exists ρ, role request = Some ρ)
          by (destruct (role request); [by eexists|done]).
        destruct Hρ as (ρ & Hρ).
        destruct (synthesize_total U synthesis_reply data) as (g & Hg).
        destruct (generate_custom_questions_of_strings questions_reply (company_name request)
                    (role request) (experience_level request) Hq) as (l & Hl & Hstr).
        destruct (create_study_plan_total plan_reply data (days_to_prepare request) Hser)
          as (plan & Hplan).
        eexists.
        rewrite (PipelineFacts.research_company_miss _ _ _ _ _ _ _ data Hget Hdata).
        rewrite Hg. cbn [bind]. rewrite Hl. cbn [bind]. rewrite Hplan. cbn [bind].
        erewrite PipelineFacts.ResearchResponse_accepts; [reflexivity|exact Hρ|exact Hstr].
    + intros miss _ Hmiss. unfold research_company. by rewrite Hget, Hmiss.
Qed.

Lemma read_failure_is_cache_miss_witness :
  connected unreachable_manager = true /\
  reachable (db unreachable_manager) = false /\
  get_company_data ascii_runtime (py "Google") (Some (py "Software Engineer"))
    unreachable_manager = Ok None /\
  (exists data response,
     scrape_company_data ascii_runtime (py "Google") (Some (py "Software Engineer")) = Ok data /\
     research_company ascii_runtime (Raise ModelError) (Raise ModelError) (Raise ModelError)
       (py "2024-01-01 00:00:00") google_request unreachable_manager
     = Ok (response, [SaveCompanyData data; SaveGeneratedReport response])) /\
  research_company ascii_runtime (Raise ModelError) (Raise ModelError) (Raise ModelError)
    (py "2024-01-01 00:00:00") google_request connected_manager
  = research_company ascii_runtime (Raise ModelError) (Raise ModelError) (Raise ModelError)
      (py "2024-01-01 00:00:00") google_request unreachable_manager.
Proof.
  assert (Hc : connected unreachable_manager = true) by reflexivity.
  assert (Hr : reachable (db unreachable_manager) = false) by reflexivity.
  split; [exact Hc|]. split; [exact Hr|].
  pose proof (read_failure_is_cache_miss ascii_runtime (Raise ModelError) (Raise ModelError)
                (Raise ModelError) (py "2024-01-01 00:00:00") google_request
                unreachable_manager Hc) as (_ & H).
  destruct (H Hr) as (Hget & (data & Hdata & _ & _ & Hok) & Hmiss).
  split; [exact Hget|]. split.
  - destruct (Hok ltac:(discriminate) I) as (response & Hresp).
    exists data, response. split; [exact Hdata|exact Hresp].
  - apply (Hmiss connected_manager); reflexivity.
Defined.

(** ** More on the heuristic parse *)

Module HeuristicFacts.
Import AIProcessor Guide Heuristic.

Lemma is_item_keeps U line : is_item U line = Ok (keeps U line).
Proof.
unfold is_item, keeps. destruct (PyStr.strip line) as [|c t]; [done|].
by destruct (PyStr.startswith _ _).
Qed.

Lemma route_without_keyword U current section :
has_keyword U section = false -> route U current section = current.
Proof.
unfold has_keyword, route. cbv zeta.
repeat destruct (PyStr.contains _ _); simpl; done.
Qed.

Lemma split_go_nonempty sep s : forall n cur, PyStr.split_go sep n s cur <> [].
Proof.
induction s as [|c r IH]; intros n cur; [done|].
simpl. destruct n; [|apply IH]. by destruct (PyStr.startswith _ _).
Qed.

Lemma empty_guide_overview : empty_guide = <[k_overview := PStr []]> empty_guide.
Proof. unfold empty_guide. by rewrite insert_insert_eq. Qed.

(** Paragraphs without a keyword replace the overview one after the
  other. *)
Lemma parse_sections_prose U sections : forall v,
Forall (fun s => has_keyword U s = false) sections ->
parse_sections U (<[k_overview := v]> empty_guide, k_overview) sections
= Ok (<[k_overview := match sections with
                      | [] => v
                      | _ => PStr (PyStr.strip (List.last sections []))
                      end]> empty_guide, k_overview).
Proof.
induction sections as [|s rest IH]; intros v Hs; [done|].
apply Forall_cons in Hs as [Hk Hrest].
cbn [parse_sections]. unfold parse_section at 1.
rewrite (route_without_keyword U _ _ Hk).
change (is_list_field k_overview) with false. cbv iota. cbn [bind].
rewrite insert_insert_eq, (IH _ Hrest).
by destruct rest.
Qed.

End HeuristicFacts.

Import AIProcessor Guide Heuristic Examples.

(** X1.  In a section routed to a list field, the lines kept are those
    that, stripped of whitespace, are not empty and start with a hyphen or
    with a digit; each is kept once per occurrence, in the order of the
    text, with the marker characters stripped from both its ends, and the
    extraction never raises. *)
Theorem items_of_filter U lines :
  items_of U lines = Ok (clean_item <$> filter (fun l => keeps U l = true) lines).
Proof.
  induction lines as [|line rest IH]; [done|].
  cbn [items_of]. rewrite HeuristicFacts.is_item_keeps, IH. cbn [bind].
  rewrite filter_cons. destruct (keeps U line) eqn:Hk.
  - by rewrite decide_True.
  - by rewrite decide_False.
Qed.

(** X2.  For a reply that the structured parse does not take and in which
    no paragraph contains a keyword, the guide returned has every field empty
    but the overview, and the overview is the last paragraph alone, stripped:
    each paragraph replaces the one before it. *)
Theorem prose_keeps_last_paragraph U response :
  not_an_object response ->
  Forall (fun s => has_keyword U s = false) (PyStr.split [10; 10] response) ->
  _parse_ai_response U response
  = Ok (<[k_overview := PStr (PyStr.strip (List.last (PyStr.split [10; 10] response) []))]>
        empty_guide).
Proof.
  intros Hno Hk. unfold _parse_ai_response.
  pose proof (HeuristicFacts.split_go_nonempty [10; 10] response 0 []) as Hsplit.
  fold (PyStr.split [10; 10] response) in Hsplit.
  assert (Hh : parse_sections U (empty_guide, k_overview) (PyStr.split [10; 10] response)
               = Ok (<[k_overview := PStr (PyStr.strip
                       (List.last (PyStr.split [10; 10] response) []))]> empty_guide,
                     k_overview)).
  { rewrite HeuristicFacts.empty_guide_overview at 1.
    rewrite (HeuristicFacts.parse_sections_prose U _ _ Hk).
    by destruct (PyStr.split [10; 10] response). }
  destruct (Json.loads response) as [data|e] eqn:Hl; simpl.
  - destruct data; simpl; try (by rewrite Hh). by destruct (Hno pairs).
  - by rewrite Hh.
Qed.

Lemma prose_keeps_last_paragraph_witness :
  let response := py "Expect four rounds." ++ [10; 10] ++ py "Prepare well." in
  not_an_object response /\
  _parse_ai_response ascii_runtime response
  = Ok (<[k_overview := PStr (py "Prepare well.")]> empty_guide).
Proof.
  cbv zeta.
  assert (Hl : Json.loads (py "Expect four rounds." ++ [10; 10] ++ py "Prepare well.")
               = Raise JSONDecodeError) by (vm_compute; reflexivity).
  assert (Hno : not_an_object (py "Expect four rounds." ++ [10; 10] ++ py "Prepare well.")).
  { intros pairs. rewrite Hl. discriminate. }
  split; [exact Hno|].
  rewrite (prose_keeps_last_paragraph ascii_runtime _ Hno).
  - do 3 f_equal.
  - repeat constructor.
Defined.

(** X3.  When [json.loads] returns an object for the reply, the guide is
    built from that object alone: it has exactly the six keys, each of the
    six fields is the value of the last member of the object under that name,
    or the empty string or the empty list when the object has none, and any
    other member is ignored.  When each of the six fields the object has is
    of its type, so is the guide. *)
Theorem typed_object_gives_typed_guide U response pairs :
  Json.loads response = Ok (PDict pairs) ->
  exists g,
    _parse_ai_response U response = Ok g /\
    guide_of_json (PDict pairs) = Ok g /\
    dom g = key_set /\
    (forall k d, (k, d) ∈ fields -> g !! k = Some (default d (Py.assoc_last k pairs None))) /\
    ((forall k v, k ∈ keys -> Py.assoc_last k pairs None = Some v -> typed_at k v = true) ->
     typed g).
Proof.
  intros Hl. unfold _parse_ai_response. rewrite Hl. simpl.
  eexists. split; [reflexivity|]. split; [reflexivity|]. split; [|split].
  - rewrite !dom_insert_L, dom_empty_L. reflexivity.
  - intros k d Hk. unfold fields in Hk. rewrite !elem_of_cons in Hk.
    destruct Hk as [Hk|[Hk|[Hk|[Hk|[Hk|[Hk|Hk]]]]]]; [..|by apply elem_of_nil in Hk];
      injection Hk as -> ->;
      rewrite ?lookup_insert_ne by compute_done; rewrite lookup_insert_eq;
      by destruct (Py.assoc_last _ pairs None).
  - intros Hty.
    assert (H : forall k d, k ∈ keys -> typed_at k d = true ->
                typed_at k (match Py.assoc_last k pairs None with
                            | Some x => x | None => d end) = true).
    { intros k d Hk Hd. specialize (Hty k).
      destruct (Py.assoc_last k pairs None); [by apply Hty|done]. }
    unfold typed, field_is.
    repeat split.
    all: rewrite ?lookup_insert_ne by compute_done; rewrite lookup_insert_eq.
    all: match goal with |- ?p (match Py.assoc_last ?k _ _ with _ => _ end) = true =>
           apply (H k); [unfold keys; rewrite !elem_of_cons; tauto|reflexivity] end.
Qed.

Lemma typed_object_gives_typed_guide_witness :
  exists g, _parse_ai_response ascii_runtime (dq "{'tips': ['Rest'], 'extra': 1}") = Ok g /\
            g !! k_tips = Some (PList [PStr (py "Rest")]) /\
            g !! k_overview = Some (PStr []) /\
            g !! py "extra" = None /\
            typed g.
Proof.
  assert (Hl : Json.loads (dq "{'tips': ['Rest'], 'extra': 1}")
               = Ok (PDict [(k_tips, PList [PStr (py "Rest")]); (py "extra", PInt 1)]))
    by (vm_compute; reflexivity).
  destruct (typed_object_gives_typed_guide ascii_runtime _ _ Hl)
    as (g & Hg & _ & Hdom & Hf & Hty).
  exists g. split; [exact Hg|]. split; [|split; [|split]].
  - apply (Hf k_tips (PList [])). unfold fields. rewrite !elem_of_cons. tauto.
  - apply (Hf k_overview (PStr [])). unfold fields. rewrite !elem_of_cons. tauto.
  - apply not_elem_of_dom. rewrite Hdom. compute_done.
  - apply Hty. intros k v Hk. unfold keys in Hk. rewrite !elem_of_cons in Hk.
    destruct Hk as [->|[->|[->|[->|[->|[->|Hk]]]]]]; [..|by apply elem_of_nil in Hk];
      vm_compute; intros [= <-]; reflexivity.
Defined.

(** ** More on the gateway *)

Module GatewayFacts.
Import Mongo DatabaseManager Upsert StoreFacts UpsertFacts.

(** After an upsert, the filter selects a document that carries the fields
  written. *)
Lemma upsert_selected (q : list (pystr * pystr)) (f : pydict) s res s1 :
(forall d, matches q d = true -> matches q (f ∪ d) = true) ->
(forall x, matches q (f ∪ (query_doc q ∪ x)) = true) ->
update_one_upsert q f s = Ok (res, s1) ->
reachable s1 = true /\
exists i x, find_index q (company_interviews s1) = Some i /\
            company_interviews s1 !! i = Some (f ∪ x).
Proof.
intros Hkeep Hnew. unfold update_one_upsert.
destruct (reachable s) eqn:Hr; [|done].
destruct (find_index q (company_interviews s)) as [i|] eqn:Hi; intros [= <- <-]; simpl.
- split; [done|]. destruct (find_index_matches _ _ _ Hi) as (d & Hd & Hm).
  exists i, d. split.
  + by apply (find_index_alter q (fun d => f ∪ d)).
  + by rewrite list_lookup_alter_eq, Hd.
- split; [done|].
  exists (length (company_interviews s)), (query_doc q ∪ {[k_id := PObjectId (next_id s)]}).
  rewrite <- (assoc_L (∪)). split.
  + apply find_index_app; [done|]. apply Hnew.
  + rewrite lookup_app_r, Nat.sub_diag by lia. done.
Qed.

Lemma update_one_upsert_frame q f s res s1 :
update_one_upsert q f s = Ok (res, s1) ->
reports s1 = reports s /\ reachable s1 = reachable s /\
(length (company_interviews s1) = length (company_interviews s) \/
 length (company_interviews s1) = S (length (company_interviews s))).
Proof.
unfold update_one_upsert. destruct (reachable s) eqn:Hr; [|done].
destruct (find_index _ _); intros [= <- <-]; simpl; rewrite ?Hr.
- rewrite length_alter. auto.
- rewrite length_app. simpl. split; [done|]. split; [done|]. right. lia.
Qed.

Lemma save_then_get U t1 t2 r self n ρ name role :
connected self = true -> reachable (db self) = true ->
r !! k_company_name = Some (PStr n) -> r !! k_role = Some (PStr ρ) ->
str_lower U n = n -> str_lower U ρ = ρ ->
str_lower U name = n -> str_lower U role = ρ -> role <> [] ->
let saved := save_company_data U t1 t2 r self in
(exists res, saved.1.1 = Ok res) /\
exists d, get_company_data U name (Some role) saved.2 = Ok (Some d) /\
          d !! k_id = None /\
          forall k v, k <> k_id -> saved.1.2 !! k = Some v -> d !! k = Some v.
Proof.
intros Hc Hr Hn Hρ Hln Hlρ Hname Hrole Hne. cbv zeta.
assert (Hq : upsert_query U r = Ok [(k_company_name, n); (k_role, ρ)]).
{ unfold upsert_query, Py.getitem, Py.get. rewrite Hn, Hρ. simpl. by rewrite Hln, Hlρ. }
assert (Hnorm : key_normalised U r).
{ split; [intros v; rewrite Hn; by intros [= <-]|].
  unfold Py.get. by rewrite Hρ. }
destruct (normalised_selected U (stamped t1 t2 r) _
            (stamped_normalised U t1 t2 r Hnorm)
            (eq_trans (stamped_query U t1 t2 r) Hq)) as [Hkeep Hnew].
rewrite save_company_data_eq, Hc, Hq. simpl.
destruct (update_one_upsert _ (stamped t1 t2 r) (db self)) as [[res s1]|e] eqn:Hu.
2: { unfold update_one_upsert in Hu. rewrite Hr in Hu. by destruct (find_index _ _). }
destruct (upsert_selected _ _ _ _ _ Hkeep Hnew Hu) as (Hr1 & i & x & Hi & Hd).
simpl. split; [by eexists|].
exists (delete k_id (stamped t1 t2 r ∪ x)). split; [|split].
- unfold get_company_data, lookup_query, find_one. simpl. rewrite Hc, Hr1. simpl.
  destruct role as [|c role']; [done|]. rewrite Hname, Hrole, Hi, Hd. done.
- apply lookup_delete_eq.
- intros k v Hk Hv. rewrite lookup_delete_ne by done.
  by apply lookup_union_Some_l.
Qed.


End GatewayFacts.

Import Mongo DatabaseManager Upsert StoreFacts UpsertFacts Examples.

(** X4.  Whenever the upsert of a record whose company name and role are
    lower-case strings succeeds, the lookup finds a document under every
    casing of the name and of a non-empty role: the document returned has no
    [_id], has the company name and the role of the record, and carries a
    [created_at] and an [updated_at] time stamp. *)
Theorem save_then_get_finds U t1 t2 r self n ρ name role res :
  r !! k_company_name = Some (PStr n) -> r !! k_role = Some (PStr ρ) ->
  str_lower U n = n -> str_lower U ρ = ρ ->
  str_lower U name = n -> str_lower U role = ρ -> role <> [] ->
  let saved := save_company_data U t1 t2 r self in
  saved.1.1 = Ok res ->
  exists d, get_company_data U name (Some role) saved.2 = Ok (Some d) /\
            d !! k_id = None /\
            d !! k_company_name = Some (PStr n) /\
            d !! k_role = Some (PStr ρ) /\
            exists t t', d !! k_created_at = Some (PDatetime t) /\
                         d !! k_updated_at = Some (PDatetime t').
Proof.
  intros Hn Hρ Hln Hlρ Hname Hrole Hne. cbv zeta. intros Hok.
  assert (Hc : connected self = true).
  { unfold save_company_data in Hok. by destruct (connected self). }
  assert (Hr : reachable (db self) = true).
  { rewrite save_company_data_eq, Hc in Hok. simpl in Hok.
    destruct (upsert_query U r) as [q|e]; simpl in Hok; [|done].
    unfold update_one_upsert in Hok. by destruct (reachable (db self)). }
  destruct (GatewayFacts.save_then_get U t1 t2 r self n ρ name role
              Hc Hr Hn Hρ Hln Hlρ Hname Hrole Hne) as (_ & d & Hget & Hid & Hd).
  assert (Hs : (save_company_data U t1 t2 r self).1.2 = stamped t1 t2 r).
  { rewrite save_company_data_eq, Hc. simpl.
    by destruct (_ <- upsert_query U r ;; _) as [[]|]. }
  rewrite Hs in Hd.
  exists d. split; [exact Hget|]. split; [exact Hid|]. split; [|split].
  - apply Hd; [compute_done|]. rewrite stamped_other by compute_done. exact Hn.
  - apply Hd; [compute_done|]. rewrite stamped_other by compute_done. exact Hρ.
  - exists t1, t2. split; (apply Hd; [compute_done|]); unfold stamped.
    + rewrite lookup_insert_ne by compute_done. apply lookup_insert_eq.
    + apply lookup_insert_eq.
Qed.

Lemma save_then_get_finds_witness :
  exists d, get_company_data ascii_runtime (py "Google") (Some (py "Software Engineer"))
              (save_company_data ascii_runtime 1 2 lowercase_record connected_manager).2
            = Ok (Some d) /\ d !! k_id = None /\
            d !! k_company_name = Some (PStr (py "google")).
Proof.
  assert (Hne : py "Software Engineer" <> []) by discriminate.
  assert (Hok : exists res,
            (save_company_data ascii_runtime 1 2 lowercase_record connected_manager).1.1
            = Ok res) by (eexists; vm_compute; reflexivity).
  destruct Hok as (res & Hok).
  destruct (save_then_get_finds ascii_runtime 1 2 lowercase_record connected_manager
              (py "google") (py "software engineer") (py "Google") (py "Software Engineer")
              res eq_refl eq_refl eq_refl eq_refl eq_refl eq_refl Hne Hok)
    as (d & Hd & Hid & Hname & _).
  exists d. split; [exact Hd|]. split; [exact Hid|exact Hname].
Defined.

(** X5.  An upsert never touches the reports, the connection flag or the
    server's availability, adds at most one document, and when it raises it
    leaves the store exactly as it was. *)
Theorem save_company_data_frame U t1 t2 r self :
  let saved := save_company_data U t1 t2 r self in
  connected saved.2 = connected self /\
  reports (db saved.2) = reports (db self) /\
  reachable (db saved.2) = reachable (db self) /\
  (length (documents saved.2) = length (documents self) \/
   length (documents saved.2) = S (length (documents self))) /\
  match saved.1.1 with
  | Raise _ => saved.2 = self
  | Ok _ => True
  end.
Proof.
  cbv zeta. rewrite save_company_data_eq.
  destruct (connected self) eqn:Hc; simpl; [|by auto 10].
  destruct (upsert_query U r) as [q|e]; simpl; [|by auto 10].
  destruct (update_one_upsert q _ (db self)) as [[res s1]|e] eqn:Hu; simpl; [|by auto 10].
  destruct (GatewayFacts.update_one_upsert_frame _ _ _ _ _ Hu) as (H1 & H2 & H3).
  unfold documents. simpl. auto 10.
Qed.

(** X6.  Whenever the save of a report that has no [_id] yet succeeds, the
    caller's dictionary has gained [created_at] and the [_id] the driver
    reports as inserted, one document with that [_id] and the keys of the
    dictionary has been added after the reports already there, which are as
    they were, no company document is touched, and the manager is still
    connected to a store that answers. *)
Theorem save_generated_report_appends t report_data self res :
  report_data !! k_id = None ->
  let saved := save_generated_report t report_data self in
  saved.1.1 = Ok res ->
  saved.1.2 = <[k_id := inserted_id res]> (<[k_created_at := PDatetime t]> report_data) /\
  (exists doc, reports (db saved.2) = reports (db self) ++ [doc] /\
               doc !! k_id = Some (inserted_id res) /\
               dom doc = dom saved.1.2) /\
  company_interviews (db saved.2) = company_interviews (db self) /\
  connected saved.2 = true /\ reachable (db saved.2) = true.
Proof.
  intros Hid. cbv zeta.
  unfold save_generated_report, insert_one.
  destruct (connected self) eqn:Hc; simpl; [|done].
  destruct (reachable (db self)) eqn:Hr; simpl; [|done].
  rewrite lookup_insert_ne by compute_done. rewrite Hid. simpl.
  intros [= <-]. simpl.
  assert (Hd : <[k_created_at := PDatetime t]> report_data ∪
                 {[k_id := PObjectId (next_id (db self))]}
               = <[k_id := PObjectId (next_id (db self))]>
                   (<[k_created_at := PDatetime t]> report_data)).
  { apply map_eq. intros k. rewrite lookup_union, !lookup_insert.
    destruct (decide (k_id = k)) as [<-|Hk].
    - rewrite decide_False by compute_done. rewrite Hid, lookup_singleton_eq. done.
    - rewrite lookup_singleton_ne by done.
      by destruct (if decide (k_created_at = k) then _ else _). }
  rewrite Hd. split; [done|]. split; [|rewrite ?Hc, ?Hr; auto].
  eexists. split; [reflexivity|]. split; [apply lookup_insert_eq|done].
Qed.

Lemma save_generated_report_appends_witness :
  let saved := save_generated_report 5 google_record connected_manager in
  (exists doc, reports (db saved.2) = [doc] /\ doc !! k_id = saved.1.2 !! k_id) /\
  company_interviews (db saved.2) = [].
Proof.
  cbv zeta.
  assert (Hok : exists res, (save_generated_report 5 google_record connected_manager).1.1
                            = Ok res) by (eexists; vm_compute; reflexivity).
  destruct Hok as (res & Hok).
  destruct (save_generated_report_appends 5 google_record connected_manager res
              eq_refl Hok) as (H0 & (doc & H1 & H2 & _) & H3 & _).
  split; [|exact H3].
  exists doc. split; [exact H1|]. rewrite H0, lookup_insert_eq. exact H2.
Defined.

(** X7.  The listing of companies never raises: it returns a list without
    repetition, each member of which is the company name of a stored
    document (or an element of it, when that is an array). *)
Theorem get_all_companies_distinct self :
  exists l, get_all_companies self = Ok l /\ NoDup l /\
            forall v, v ∈ l ->
              exists d, d ∈ documents self /\ v ∈ field_values k_company_name d.
Proof.
  unfold get_all_companies, distinct.
  destruct (connected self); simpl.
  2: { exists []. split; [done|]. split; [constructor|]. intros v Hv. by apply elem_of_nil in Hv. }
  destruct (reachable (db self)); simpl.
  2: { exists []. split; [done|]. split; [constructor|]. intros v Hv. by apply elem_of_nil in Hv. }
  eexists. split; [reflexivity|]. split; [apply NoDup_remove_dups|].
  intros v Hv. apply elem_of_remove_dups, list_elem_of_bind in Hv as (d & Hv & Hd).
  by exists d.
Qed.

(** X8.  The health check never raises and answers whether the manager is
    connected to a server that answers; right after [connect] it answers
    whether the connection succeeded, and after [disconnect] it answers no. *)
Theorem health_check_after_connect self :
  health_check self = Ok (connected self && reachable (db self)) /\
  health_check (connect self).2 = Ok (reachable (db self)) /\
  connected (connect self).2 = reachable (db self) /\
  health_check (disconnect self) = Ok false.
Proof.
  unfold health_check, connect, disconnect, ping.
  destruct (connected self), (reachable (db self)) eqn:Hr; simpl; rewrite ?Hr; auto.
Qed.

(** ** More on the aggregation and the route *)

Module RouteFacts.
Import Mongo DatabaseManager Upsert AIProcessor Api Aggregation.

Lemma mark_source_eq d name pairs :
d !! k_sources = Some (PDict pairs) ->
mark_source d name
= Ok (<[k_sources := PDict (Scraper.setitem pairs name (PBool true))]> d).
Proof. intros Hd. unfold mark_source, Py.getitem. by rewrite Hd. Qed.

(** The record the aggregation returns, written out. *)
Lemma scrape_company_data_eq U name role :
scrape_company_data U name role
= Ok (<[k_sources := PDict all_sources]>
      (<[py "general_sources" := PDict (Scraper.scrape_general_sources name role)]>
      (<[k_sources := PDict [(py "glassdoor", PBool true); (py "leetcode", PBool true)]]>
      (<[py "leetcode_data" := PDict (Scraper.scrape_leetcode_company name)]>
      (<[k_sources := PDict [(py "glassdoor", PBool true)]]>
      (Scraper.scrape_glassdoor_interviews U name role ∪
       (<[py "company_name" := PStr name]>
        (<[py "role" := role_value role]>
         (<[k_sources := PDict []]> ∅))))))))).
Proof.
unfold scrape_company_data.
destruct (PipelineFacts.glassdoor_data_facts U name role) as (_ & Hgs & Hne).
set (g := Scraper.scrape_glassdoor_interviews U name role) in *.
rewrite (bool_decide_eq_false_2 _ Hne).
rewrite (mark_source_eq _ _ []).
2: { rewrite lookup_union_r by exact Hgs.
     rewrite !lookup_insert_ne by compute_done. apply lookup_insert_eq. }
cbn [bind].
change (Scraper.nonempty (Scraper.scrape_leetcode_company name)) with true. cbv iota.
rewrite (mark_source_eq _ _ [(py "glassdoor", PBool true)]).
2: { rewrite lookup_insert_ne by compute_done. apply lookup_insert_eq. }
cbn [bind].
change (Scraper.nonempty (Scraper.scrape_general_sources name role)) with true. cbv iota.
rewrite (mark_source_eq _ _ [(py "glassdoor", PBool true); (py "leetcode", PBool true)]).
2: { rewrite lookup_insert_ne by compute_done. apply lookup_insert_eq. }
reflexivity.
Qed.

Lemma scrape_company_data_glassdoor U name role data k v :
scrape_company_data U name role = Ok data ->
k <> k_sources -> k <> py "general_sources" -> k <> py "leetcode_data" ->
Scraper.scrape_glassdoor_interviews U name role !! k = Some v ->
data !! k = Some v.
Proof.
rewrite scrape_company_data_eq. intros [= <-] H1 H2 H3 Hv.
rewrite !lookup_insert_ne by done. by apply lookup_union_Some_l.
Qed.

Lemma scrape_company_data_name U name role data :
scrape_company_data U name role = Ok data ->
data !! py "company_name" = Some (PStr name).
Proof.
intros Hd. apply (scrape_company_data_glassdoor U name role data _ _ Hd);
  try compute_done.
unfold Scraper.scrape_glassdoor_interviews, Scraper._generate_mock_glassdoor_data.
apply lookup_insert_eq.
Qed.

(** A document that carries a time stamp cannot be written into a
  prompt. *)
Lemma datetime_not_serializable (d : pydict) k t :
d !! k = Some (PDatetime t) -> Py.dict_serializable d = false.
Proof.
intros Hd. apply bool_decide_eq_false_2. intros H. by specialize (H k _ Hd).
Qed.

(** A hit on a document that cannot be written into a prompt ends in the
  study plan's prompt. *)
Lemma research_hit_unserializable U synthesis_reply questions_reply plan_reply
  generated_at request self d :
get_company_data U (company_name request) (role request) self = Ok (Some d) ->
d <> ∅ -> Py.dict_serializable d = false ->
research_company U synthesis_reply questions_reply plan_reply generated_at request self
= Raise (HTTPException 500 TypeError).
Proof.
intros Hget Hne Hser. unfold research_company, obtain_interview_data.
rewrite Hget. simpl. rewrite (bool_decide_eq_false_2 _ Hne). simpl.
destruct (synthesize_total U synthesis_reply d) as (g & ->). simpl.
destruct (generate_custom_questions_total questions_reply (company_name request)
            (role request) (experience_level request)) as (l & ->). simpl.
unfold create_study_plan, dumps_for_prompt. by rewrite Hser.
Qed.

End RouteFacts.

Import Mongo DatabaseManager Upsert AIProcessor Api Examples.

(** X9.  The statistics never raise.  After a report without [_id] has been
    saved on a connected store that answers, they count the company
    documents as before and one report more. *)
Theorem database_stats_after_report t report_data self :
  (exists stats, get_database_stats self = Ok stats) /\
  (connected self = true -> reachable (db self) = true ->
   report_data !! k_id = None ->
   get_database_stats (save_generated_report t report_data self).2
   = Ok (<[k_companies_count := PInt (Z.of_nat (length (company_interviews (db self))))]>
         (<[k_reports_count := PInt (Z.of_nat (length (reports (db self))) + 1)]>
         (<[k_connection_status := PStr (py "connected")]> ∅)))).
Proof.
  split.
  - unfold get_database_stats, count_documents.
    destruct (connected self); simpl; [|by eexists].
    destruct (reachable (db self)); simpl; by eexists.
  - intros Hc Hr Hid.
    unfold save_generated_report, insert_one. rewrite Hc, Hr. simpl.
    rewrite lookup_insert_ne by compute_done. rewrite Hid.
    unfold get_database_stats, count_documents. simpl. rewrite ?Hc, ?Hr. simpl.
    rewrite length_app. simpl. do 4 f_equal. lia.
Qed.

Lemma database_stats_after_report_witness :
  get_database_stats (save_generated_report 5 google_record connected_manager).2
  = Ok (<[k_companies_count := PInt 0]>
        (<[k_reports_count := PInt 1]>
        (<[k_connection_status := PStr (py "connected")]> ∅))).
Proof.
  destruct (database_stats_after_report 5 google_record connected_manager) as [_ H].
  exact (H eq_refl eq_refl eq_refl).
Defined.

(** X10.  The aggregation always returns a record.  It carries the company
    name as given, a role that is never empty (Software Engineer when none
    is given), the data of all three sources, each source marked in
    [sources], and the difficulty of the company's entry in the table, which
    is looked up by the lower-cased name. *)
Theorem scrape_company_data_shape U name role :
  exists data,
    scrape_company_data U name role = Ok data /\
    data !! py "company_name" = Some (PStr name) /\
    data !! py "role" = Some (PStr (Scraper.role_or_default role)) /\
    Scraper.role_or_default role <> [] /\
    data !! k_sources = Some (PDict Aggregation.all_sources) /\
    data !! py "leetcode_data" = Some (PDict (Scraper.scrape_leetcode_company name)) /\
    data !! py "general_sources" = Some (PDict (Scraper.scrape_general_sources name role)) /\
    data !! py "difficulty_level"
      = Some (Scraper.difficulty_level
                (default Scraper.default_data
                   (Scraper.company_specific_data !! str_lower U name))).
Proof.
  eexists. split; [apply RouteFacts.scrape_company_data_eq|].
  pose proof (RouteFacts.scrape_company_data_eq U name role) as Heq.
  split; [by apply (RouteFacts.scrape_company_data_name U name role)|].
  split.
  { apply (RouteFacts.scrape_company_data_glassdoor U name role _ _ _ Heq);
      try compute_done.
    unfold Scraper.scrape_glassdoor_interviews, Scraper._generate_mock_glassdoor_data.
    rewrite lookup_insert_ne by compute_done. apply lookup_insert_eq. }
  split; [by destruct role as [[|c r]|]|].
  split; [apply lookup_insert_eq|].
  split.
  { rewrite !lookup_insert_ne by compute_done. apply lookup_insert_eq. }
  split.
  { rewrite lookup_insert_ne by compute_done. apply lookup_insert_eq. }
  apply (RouteFacts.scrape_company_data_glassdoor U name role _ _ _ Heq);
    try compute_done.
  unfold Scraper.scrape_glassdoor_interviews, Scraper._generate_mock_glassdoor_data.
  rewrite !lookup_insert_ne by compute_done. apply lookup_insert_eq.
Qed.

(** X11.  While the manager is not connected, the research route fails
    with status 500 and the connectivity error, whatever the request and
    the model would do, and nothing is scheduled. *)
Theorem research_company_disconnected U synthesis_reply questions_reply plan_reply
    generated_at request self :
  connected self = false ->
  research_company U synthesis_reply questions_reply plan_reply generated_at request self
  = Raise (HTTPException 500 NotConnected).
Proof.
  intros Hc. unfold research_company, get_company_data. by rewrite Hc.
Qed.

Lemma research_company_disconnected_witness :
  research_company ascii_runtime (Ok []) (Ok []) (Ok []) (py "now") google_request
    fresh_manager
  = Raise (HTTPException 500 NotConnected).
Proof.
  apply (research_company_disconnected ascii_runtime (Ok []) (Ok []) (Ok []) (py "now")
           google_request fresh_manager eq_refl).
Defined.

(** X12.  A request that hits a record stored by [save_company_data] fails
    with status 500, whatever the model replies: the stored record carries
    its time stamps, and the prompt of the study plan cannot be written from
    it.  So, on a store that answers, once a record with a lower-case name
    and role has been saved, every request for that company and role
    fails. *)
Theorem research_company_after_save_fails U synthesis_reply questions_reply plan_reply
    generated_at request role t1 t2 r self n ρ :
  connected self = true -> reachable (db self) = true ->
  r !! k_company_name = Some (PStr n) -> r !! k_role = Some (PStr ρ) ->
  str_lower U n = n -> str_lower U ρ = ρ ->
  str_lower U (company_name request) = n ->
  Api.role request = Some role -> str_lower U role = ρ -> role <> [] ->
  research_company U synthesis_reply questions_reply plan_reply generated_at request
    (save_company_data U t1 t2 r self).2
  = Raise (HTTPException 500 TypeError).
Proof.
  intros Hc Hr Hn Hρ Hln Hlρ Hname Hreq Hrole Hne.
  destruct (GatewayFacts.save_then_get U t1 t2 r self n ρ (company_name request) role
              Hc Hr Hn Hρ Hln Hlρ Hname Hrole Hne) as (_ & d & Hget & _ & Hd).
  assert (Hcr : d !! k_created_at = Some (PDatetime t1)).
  { apply Hd; [compute_done|].
    rewrite save_company_data_eq, Hc. simpl.
    assert (Hs : stamped t1 t2 r !! k_created_at = Some (PDatetime t1)).
    { unfold stamped. rewrite lookup_insert_ne by compute_done. apply lookup_insert_eq. }
    by destruct (_ <- upsert_query U r ;; _) as [[]|]. }
  apply (RouteFacts.research_hit_unserializable _ _ _ _ _ _ _ d).
  - by rewrite Hreq.
  - intros ->. by rewrite lookup_empty in Hcr.
  - by apply (RouteFacts.datetime_not_serializable d k_created_at t1).
Qed.

Lemma research_company_after_save_fails_witness :
  research_company ascii_runtime (Ok []) (Ok []) (Ok []) (py "now") google_request
    (save_company_data ascii_runtime 1 2 lowercase_record connected_manager).2
  = Raise (HTTPException 500 TypeError).
Proof.
  assert (Hne : py "Software Engineer" <> []) by discriminate.
  apply (research_company_after_save_fails ascii_runtime (Ok []) (Ok []) (Ok [])
           (py "now") google_request (py "Software Engineer") 1 2 lowercase_record
           connected_manager (py "google") (py "software engineer")
           eq_refl eq_refl eq_refl eq_refl eq_refl eq_refl eq_refl eq_refl eq_refl Hne).
Defined.

(** X13.  On a hit with a record that can be written into a prompt, for a
    request that names a role and questions that are strings, the route does
    not aggregate: the response carries the stored record as it is, and only
    the save of the report is scheduled. *)
Theorem research_company_hit U synthesis_reply questions_reply plan_reply
    generated_at request self d role :
  get_company_data U (company_name request) (Api.role request) self = Ok (Some d) ->
  d <> ∅ -> Py.dict_serializable d = true ->
  Api.role request = Some role -> Questions.string_items questions_reply ->
  exists response,
    research_company U synthesis_reply questions_reply plan_reply generated_at request self
    = Ok (response, [SaveGeneratedReport response]) /\
    r_interview_data response = d.
Proof.
  intros Hget Hne Hser Hrole Hq. unfold research_company, obtain_interview_data.
  rewrite Hget. simpl. rewrite (bool_decide_eq_false_2 _ Hne). simpl.
  destruct (synthesize_total U synthesis_reply d) as (g & ->). simpl.
  destruct (generate_custom_questions_of_strings questions_reply (company_name request)
              (Api.role request) (experience_level request) Hq) as (l & -> & Hstr). simpl.
  destruct (create_study_plan_total plan_reply d (days_to_prepare request) Hser)
    as (p & ->). simpl.
  erewrite PipelineFacts.ResearchResponse_accepts; [|exact Hrole|exact Hstr].
  eexists. split; reflexivity.
Qed.

Lemma research_company_hit_witness :
  exists response,
    research_company ascii_runtime (Ok []) (Ok []) (Ok []) (py "now") google_request
      stocked_manager
    = Ok (response, [SaveGeneratedReport response]) /\
    r_interview_data response = lowercase_record.
Proof.
  assert (Hget : get_company_data ascii_runtime (company_name google_request)
                   (Api.role google_request) stocked_manager = Ok (Some lowercase_record))
    by (vm_compute; reflexivity).
  assert (Hne : lowercase_record <> ∅) by apply insert_non_empty.
  assert (Hser : Py.dict_serializable lowercase_record = true) by (vm_compute; reflexivity).
  assert (Hq : Questions.string_items (Ok [])).
  { intros items. vm_compute. discriminate. }
  apply (research_company_hit ascii_runtime (Ok []) (Ok []) (Ok []) (py "now")
           google_request stocked_manager lowercase_record (py "Software Engineer")
           Hget Hne Hser eq_refl Hq).
Defined.

(** X14.  On a miss, when all three model calls raise, the route answers a
    request that names a role: the overview names the company as the request
    spells it, the questions are the five fallback questions, the plan is the
    fallback plan for the days asked, and the save of the fresh record is
    scheduled before the save of the report.  A request whose role is
    [null] fails with status 500 instead, refused by the response model. *)
Theorem research_company_all_fallbacks U e1 e2 e3 generated_at request self :
  get_company_data U (company_name request) (Api.role request) self = Ok None ->
  exists data,
    scrape_company_data U (company_name request) (Api.role request) = Ok data /\
    match Api.role request with
    | Some _ =>
      exists response,
        research_company U (Raise e1) (Raise e2) (Raise e3) generated_at request self
        = Ok (response, [SaveCompanyData data; SaveGeneratedReport response]) /\
        r_interview_data response = data /\
        r_ai_synthesis response !! k_overview
        = Some (PStr (py "Interview preparation guide for " ++ company_name request)) /\
        r_custom_questions response
        = _fallback_questions (company_name request) (Api.role request) /\
        r_study_plan response = _fallback_study_plan (days_to_prepare request)
    | None =>
      research_company U (Raise e1) (Raise e2) (Raise e3) generated_at request self
      = Raise (HTTPException 500 ValidationError)
    end.
Proof.
  intros Hget.
  destruct (PipelineFacts.scrape_company_data_ok U (company_name request) (Api.role request))
    as (data & Hdata & Hser).
  exists data. split; [exact Hdata|].
  rewrite (PipelineFacts.research_company_miss _ _ _ _ _ _ _ data Hget Hdata).
  unfold synthesize_interview_data, create_study_plan, dumps_for_prompt.
  rewrite Hser. simpl. unfold ResearchResponse. simpl.
  destruct (Api.role request) as [ρ|] eqn:Hρ; simpl; [|reflexivity].
  eexists. split; [reflexivity|]. simpl. split; [reflexivity|].
  split; [|split; reflexivity].
  unfold _fallback_synthesis. rewrite lookup_insert_eq. unfold Py.get.
  rewrite <- Hρ in Hdata.
  by rewrite (RouteFacts.scrape_company_data_name U _ _ _ Hdata).
Qed.

Lemma research_company_all_fallbacks_witness :
  exists data response,
    scrape_company_data ascii_runtime (py "Google") (Some (py "Software Engineer")) = Ok data /\
    research_company ascii_runtime (Raise ModelError) (Raise ModelError) (Raise ModelError)
      (py "now") google_request connected_manager
    = Ok (response, [SaveCompanyData data; SaveGeneratedReport response]) /\
    r_ai_synthesis response !! k_overview
    = Some (PStr (py "Interview preparation guide for Google")).
Proof.
  destruct (research_company_all_fallbacks ascii_runtime ModelError ModelError ModelError
              (py "now") google_request connected_manager eq_refl)
    as (data & H1 & response & H2 & _ & H3 & _).
  exists data, response. split; [exact H1|]. split; [exact H2|exact H3].
Defined.

(** X15.  The route that lists the companies never fails with status 500:
    the listing it calls swallows every error, so the handler of the route is
    never taken, and a store that is down shows as an empty list. *)
Theorem get_companies_never_fails self :
  exists l, get_companies self = Ok (<[py "companies" := PList l]> ∅) /\
            (connected self && reachable (db self) = false -> l = []).
Proof.
  unfold get_companies, get_all_companies, distinct.
  destruct (connected self); simpl; [|by eexists].
  destruct (reachable (db self)); simpl; by eexists.
Qed.

(** X16.  Whenever the route answers, the response echoes the company, the
    role and the clock text of the request, its plan has the duration asked
    for, and the tasks scheduled are the save of the report alone, or the
    save of the very record the response carries followed by the save of the
    report. *)
Theorem research_company_response U synthesis_reply questions_reply plan_reply
    generated_at request self response tasks :
  research_company U synthesis_reply questions_reply plan_reply generated_at request self
  = Ok (response, tasks) ->
  r_company_name response = company_name request /\
  r_role response = Api.role request /\
  r_generated_at response = generated_at /\
  r_study_plan response !! k_duration = Some (PInt (days_to_prepare request)) /\
  (tasks = [SaveGeneratedReport response] \/
   tasks = [SaveCompanyData (r_interview_data response); SaveGeneratedReport response]).
Proof.
  unfold research_company.
  destruct (get_company_data U _ _ self) as [cached|e]; simpl; [|done].
  destruct (obtain_interview_data U request cached) as [[data ts]|e] eqn:Ho; simpl; [|done].
  destruct (synthesize_interview_data U synthesis_reply data) as [g|e]; simpl; [|done].
  destruct (generate_custom_questions _ _ _ _) as [l|e]; simpl; [|done].
  destruct (create_study_plan plan_reply data _) as [p|e] eqn:Hp; simpl; [|done].
  destruct (ResearchResponse _) as [r|e] eqn:Hv; simpl; [|done].
  apply PipelineFacts.ResearchResponse_ok in Hv. subst r.
  intros [= <- <-]. simpl. repeat split.
  - unfold create_study_plan in Hp.
    destruct (dumps_for_prompt data); simpl in Hp; [|done].
    destruct plan_reply; simpl in Hp; injection Hp as <-;
      unfold _fallback_study_plan; rewrite lookup_insert_ne by compute_done;
      apply lookup_insert_eq.
  - unfold obtain_interview_data in Ho.
    destruct cached as [d|]; [case_bool_decide|];
      try (destruct (scrape_company_data U _ _); simpl in Ho; [|done]);
      injection Ho as <- <-; auto.
Qed.

Lemma research_company_response_witness :
  exists response tasks,
    research_company ascii_runtime (Raise ModelError) (Raise ModelError) (Raise ModelError)
      (py "now") google_request connected_manager = Ok (response, tasks) /\
    r_company_name response = py "Google" /\
    r_study_plan response !! k_duration = Some (PInt 30).
Proof.
  destruct (PipelineFacts.scrape_company_data_ok ascii_runtime (py "Google")
              (Some (py "Software Engineer"))) as (data & Hdata & Hser).
  assert (H : exists response tasks,
             research_company ascii_runtime (Raise ModelError) (Raise ModelError)
               (Raise ModelError) (py "now") google_request connected_manager
             = Ok (response, tasks)).
  { unfold research_company, obtain_interview_data. simpl.
    change (Api.scrape_company_data ascii_runtime (py "Google") (Some (py "Software Engineer")))
      with (scrape_company_data ascii_runtime (py "Google") (Some (py "Software Engineer"))).
    rewrite Hdata. simpl.
    unfold synthesize_interview_data, create_study_plan, dumps_for_prompt.
    rewrite Hser. simpl. by do 2 eexists. }
  destruct H as (response & tasks & H).
  exists response, tasks. split; [exact H|].
  destruct (research_company_response _ _ _ _ _ _ _ _ _ H) as (H1 & _ & _ & H4 & _).
  split; [exact H1|exact H4].
Defined.

(** X17.  The question generator never raises.  When the model call
    raises it returns the five fallback questions; when the reply is a JSON
    list, its items as they are; when the reply is JSON of another kind,
    nothing; when the reply is not JSON, its non-blank lines, each stripped
    of hyphens, bullets and spaces at both ends.  So it returns strings only,
    unless the reply is a JSON list that holds something else. *)
Theorem generate_custom_questions_strings reply company_name role experience_level :
  generate_custom_questions reply company_name role experience_level
  = Ok (match reply with
        | Raise _ => _fallback_questions company_name role
        | Ok text =>
          match Json.loads text with
          | Ok (PList items) => items
          | Ok _ => []
          | Raise _ =>
            (fun q => PStr (PyStr.strip_chars [45; bullet; 32] q)) <$>
              filter (fun q => PyStr.strip q <> []) (PyStr.splitlines text)
          end
        end) /\
  (Questions.string_items reply ->
   exists questions,
     generate_custom_questions reply company_name role experience_level = Ok questions /\
     forallb Py.is_str questions = true).
Proof.
  split; [|apply generate_custom_questions_of_strings].
  unfold generate_custom_questions. destruct reply as [text|e]; simpl; [|reflexivity].
  destruct (Json.loads text) as [v|e]; simpl; [|reflexivity].
  by destruct v.
Qed.

Lemma generate_custom_questions_strings_witness :
  generate_custom_questions (Ok (py "- Why us?" ++ [10; 10] ++ py "  " ++ [10; 8226]
                                 ++ py " Your strengths?"))
    (py "Google") None None
  = Ok [PStr (py "Why us?"); PStr (py "Your strengths?")].
Proof.
  destruct (generate_custom_questions_strings
              (Ok (py "- Why us?" ++ [10; 10] ++ py "  " ++ [10; 8226]
                   ++ py " Your strengths?")) (py "Google") None None) as (Hq & _).
  rewrite Hq. vm_compute. reflexivity.
Defined.

(** X18.  When the synthesis falls back on a freshly aggregated record, the
    guide it returns has all six fields with their types; its technical areas
    are the company's technical topics and its questions and tips the
    behavioural questions and tips of the record. *)
Theorem fallback_synthesis_of_aggregate U e name role :
  exists data g,
    scrape_company_data U name role = Ok data /\
    synthesize_interview_data U (Raise e) data = Ok g /\
    Guide.typed g /\
    g !! k_technical_areas = data !! py "technical_topics" /\
    g !! k_questions = data !! py "behavioral_questions" /\
    g !! k_tips = data !! py "tips".
Proof.
  destruct (PipelineFacts.scrape_company_data_ok U name role) as (data & Hdata & Hser).
  exists data. eexists. split; [exact Hdata|].
  unfold synthesize_interview_data, dumps_for_prompt. rewrite Hser. simpl.
  split; [reflexivity|].
  assert (Hg : forall k v, k <> k_sources -> k <> py "general_sources" ->
                 k <> py "leetcode_data" ->
                 Scraper.scrape_glassdoor_interviews U name role !! k = Some v ->
                 Py.get data k (PList []) = v).
  { intros k v H1 H2 H3 Hv. unfold Py.get.
    by rewrite (RouteFacts.scrape_company_data_glassdoor U name role data k v Hdata). }
  assert (Htopics : exists l, Scraper.technical_topics
                      (default Scraper.default_data
                         (Scraper.company_specific_data !! str_lower U name)) = PList l /\
                    forallb Py.is_str l = true).
  { unfold Scraper.company_specific_data. rewrite !lookup_insert.
    repeat case_decide; simpl; by eexists. }
  destruct Htopics as (topics & Htopics & Hstr).
  unfold Scraper.scrape_glassdoor_interviews, Scraper._generate_mock_glassdoor_data in Hg.
  rewrite Htopics in Hg.
  unfold _fallback_synthesis.
  rewrite (Hg (py "technical_topics") (PList topics)); try compute_done.
  2: { rewrite !lookup_insert_ne by compute_done. apply lookup_insert_eq. }
  erewrite (Hg (py "behavioral_questions")); try compute_done.
  2: { rewrite !lookup_insert_ne by compute_done. apply lookup_insert_eq. }
  erewrite (Hg (py "tips")); try compute_done.
  2: { rewrite !lookup_insert_ne by compute_done. apply lookup_insert_eq. }
  split; [|split; [|split]].
  - unfold Guide.typed, Guide.field_is.
    repeat split; rewrite ?lookup_insert_ne by compute_done; rewrite lookup_insert_eq;
      try reflexivity. exact Hstr.
  - rewrite lookup_insert_ne by compute_done. rewrite lookup_insert_eq.
    symmetry. apply (RouteFacts.scrape_company_data_glassdoor U name role data _ _ Hdata);
      try compute_done.
    unfold Scraper.scrape_glassdoor_interviews, Scraper._generate_mock_glassdoor_data.
    rewrite Htopics. rewrite !lookup_insert_ne by compute_done. apply lookup_insert_eq.
  - rewrite !lookup_insert_ne by compute_done. rewrite lookup_insert_eq.
    symmetry. apply (RouteFacts.scrape_company_data_glassdoor U name role data _ _ Hdata);
      try compute_done.
    unfold Scraper.scrape_glassdoor_interviews, Scraper._generate_mock_glassdoor_data.
    rewrite !lookup_insert_ne by compute_done. apply lookup_insert_eq.
  - rewrite !lookup_insert_ne by compute_done. rewrite lookup_insert_eq.
    symmetry. apply (RouteFacts.scrape_company_data_glassdoor U name role data _ _ Hdata);
      try compute_done.
    unfold Scraper.scrape_glassdoor_interviews, Scraper._generate_mock_glassdoor_data.
    rewrite !lookup_insert_ne by compute_done. apply lookup_insert_eq.
Qed.

